(** * telecmd: matching chat messages to commands, running them, replying

    A shallow embedding of [internal/telecmd] (telecmd.go, types.go) and of
    the earlier single-file [main] of the repository, with the parts of the
    Go standard library these files call.

    Go strings are byte sequences: they are modelled by [string], one
    [ascii] per byte.  Go integers that are only printed (ids, exit codes)
    are modelled by [Z]. *)

From Stdlib Require Import List String Ascii ZArith NArith Bool Lia.
From Stdlib Require Import DecimalString.
Import ListNotations.

Set Warnings "-register-all".

Open Scope string_scope.
Open Scope list_scope.
Open Scope N_scope.

(** ** Bytes *)

Definition byte_val (c : ascii) : N := N_of_ascii c.

Definition byte_of (n : N) : ascii := ascii_of_N n.

Definition bytes_of_string (s : string) : list N :=
  map byte_val (list_ascii_of_string s).

Definition string_of_bytes (bs : list N) : string :=
  string_of_list_ascii (map byte_of bs).

(** ** Package unicode/utf8 *)

Module utf8.

Definition RuneError : N := 65533.

Definition RuneSelf : N := 128.

(** [b] is a continuation byte, 10xxxxxx. *)
Definition cont (b : N) : bool := (128 <=? b) && (b <=? 191).

Definition between (lo hi b : N) : bool := (lo <=? b) && (b <=? hi).

Definition low6 (b : N) : N := N.land b 63.

(** utf8.DecodeRune: the first rune of [bs] and its width in bytes.  An
    empty input gives (RuneError, 0); an invalid or short encoding gives
    (RuneError, 1).  The accepted second-byte ranges are those of the
    library's [acceptRanges] table (no overlong forms, no surrogates,
    nothing above U+10FFFF). *)
Definition DecodeRune (bs : list N) : N * nat :=
  match bs with
  | [] => (RuneError, 0%nat)
  | b0 :: r0 =>
      if b0 <? RuneSelf then (b0, 1%nat)
      else if between 194 223 b0 then
        match r0 with
        | b1 :: _ =>
            if cont b1
            then (N.lor (N.shiftl (N.land b0 31) 6) (low6 b1), 2%nat)
            else (RuneError, 1%nat)
        | [] => (RuneError, 1%nat)
        end
      else if between 224 239 b0 then
        match r0 with
        | b1 :: b2 :: _ =>
            let lo := if b0 =? 224 then 160 else 128 in
            let hi := if b0 =? 237 then 159 else 191 in
            if between lo hi b1 && cont b2
            then (N.lor (N.shiftl (N.land b0 15) 12)
                    (N.lor (N.shiftl (low6 b1) 6) (low6 b2)), 3%nat)
            else (RuneError, 1%nat)
        | _ => (RuneError, 1%nat)
        end
      else if between 240 244 b0 then
        match r0 with
        | b1 :: b2 :: b3 :: _ =>
            let lo := if b0 =? 240 then 144 else 128 in
            let hi := if b0 =? 244 then 143 else 191 in
            if between lo hi b1 && cont b2 && cont b3
            then (N.lor (N.shiftl (N.land b0 7) 18)
                    (N.lor (N.shiftl (low6 b1) 12)
                       (N.lor (N.shiftl (low6 b2) 6) (low6 b3))), 4%nat)
            else (RuneError, 1%nat)
        | _ => (RuneError, 1%nat)
        end
      else (RuneError, 1%nat)
  end.

(** utf8.RuneStart: [b] could be the first byte of an encoded rune. *)
Definition RuneStart (b : N) : bool := negb (N.land b 192 =? 128).

(** utf8.DecodeLastRune on the reversed input [rs] (last byte first).  The
    library walks back over at most three bytes to a byte that may start a
    rune, decodes forward from there, and accepts the rune only if it ends
    exactly at the end of the input. *)
Definition DecodeLastRune (rs : list N) : N * nat :=
  match rs with
  | [] => (RuneError, 0%nat)
  | b :: before =>
      if b <? RuneSelf then (b, 1%nat)
      else
        let try (k : nat) :=
          let '(r, size) := DecodeRune (rev (firstn (S k) rs)) in
          if Nat.eqb size (S k) then (r, size) else (RuneError, 1%nat) in
        match before with
        | p1 :: before1 =>
            if RuneStart p1 then try 1%nat
            else match before1 with
                 | p2 :: before2 =>
                     if RuneStart p2 then try 2%nat
                     else match before2 with
                          | p3 :: _ =>
                              if RuneStart p3 then try 3%nat
                              else (RuneError, 1%nat)
                          | [] => (RuneError, 1%nat)
                          end
                 | [] => (RuneError, 1%nat)
                 end
        | [] => (RuneError, 1%nat)
        end
  end.

(** utf8.AppendRune: the UTF-8 encoding of [r]; a surrogate or a value
    above U+10FFFF is encoded as RuneError. *)
Definition EncodeRune (r : N) : list N :=
  if r <=? 127 then [r]
  else if r <=? 2047 then
    [N.lor 192 (N.shiftr r 6); N.lor 128 (low6 r)]
  else if (1114111 <? r) || between 55296 57343 r then [239; 191; 189]
  else if r <=? 65535 then
    [N.lor 224 (N.shiftr r 12); N.lor 128 (low6 (N.shiftr r 6));
     N.lor 128 (low6 r)]
  else
    [N.lor 240 (N.shiftr r 18); N.lor 128 (low6 (N.shiftr r 12));
     N.lor 128 (low6 (N.shiftr r 6)); N.lor 128 (low6 r)].

End utf8.

(** ** Package unicode *)

Module unicode.

(** unicode.IsSpace: the Latin-1 cases of the library's switch, then its
    White_Space table above Latin-1. *)
Definition IsSpace (r : N) : bool :=
  if r <=? 255 then
    (r =? 9) || (r =? 10) || (r =? 11) || (r =? 12) || (r =? 13)
    || (r =? 32) || (r =? 133) || (r =? 160)
  else
    (r =? 5760) || utf8.between 8192 8202 r || utf8.between 8232 8233 r
    || (r =? 8239) || (r =? 8287) || (r =? 12288).

End unicode.

(** ** Package strings *)

Module strings.

(** strings.HasPrefix *)
Definition HasPrefix (s pre : string) : bool := String.prefix pre s.

(** strings.TrimLeftFunc on bytes.  [skip] counts the bytes of the current
    rune that are still to be dropped, so the recursion is on the input. *)
Fixpoint trimLeft (f : N -> bool) (skip : nat) (bs : list N) : list N :=
  match bs with
  | [] => []
  | b :: rest =>
      match skip with
      | S k => trimLeft f k rest
      | O =>
          let '(r, size) := utf8.DecodeRune bs in
          if f r then trimLeft f (Nat.pred size) rest else bs
      end
  end.

(** strings.TrimRightFunc on the reversed bytes. *)
Fixpoint trimRightRev (f : N -> bool) (skip : nat) (rs : list N) : list N :=
  match rs with
  | [] => []
  | b :: rest =>
      match skip with
      | S k => trimRightRev f k rest
      | O =>
          let '(r, size) := utf8.DecodeLastRune rs in
          if f r then trimRightRev f (Nat.pred size) rest else rs
      end
  end.

Definition TrimFunc (f : N -> bool) (bs : list N) : list N :=
  rev (trimRightRev f 0 (rev (trimLeft f 0 bs))).

(** strings.TrimSpace: the input without its leading and trailing white
    space, as unicode.IsSpace defines it.  (The library's ASCII fast path
    computes the same slice.) *)
Definition TrimSpace (s : string) : string :=
  string_of_bytes (TrimFunc unicode.IsSpace (bytes_of_string s)).

(** strings.Index for a one-byte separator: the bytes before the first
    occurrence of [c] and the bytes after it. *)
Fixpoint cut (c : ascii) (s : string) : option (string * string) :=
  match s with
  | EmptyString => None
  | String a rest =>
      if Ascii.eqb a c then Some (EmptyString, rest)
      else match cut c rest with
           | Some (k, v) => Some (String a k, v)
           | None => None
           end
  end.

(** [sub] occurs in [s] (strings.Contains). *)
Fixpoint Contains (s sub : string) : bool :=
  String.prefix sub s ||
  match s with
  | EmptyString => false
  | String _ rest => Contains rest sub
  end.

End strings.

(** ** Package fmt *)

Module fmt.

(** The verb %d of fmt.Sprintf on an integer. *)
Definition d (n : Z) : string := NilZero.string_of_int (Z.to_int n).

End fmt.

(** ** Package encoding/json

    [Unmarshal] below is json.Unmarshal at the one target type the program
    uses, [struct { Message string `json:"message"` }].  The library first
    checks that the whole input is one well-formed JSON value ([checkValid]),
    then stores the members of the top-level object into the fields they
    name.  Here the input is cut into tokens by a byte-at-a-time automaton,
    the tokens are assembled into a [value] by a stack automaton, and the
    value is stored into the struct. *)

Module json.

Inductive error : Type :=
| SyntaxError
| UnmarshalTypeError.

(** *** String literals *)

(** The content of a string literal before it is unquoted: a byte (written
    as is, or by a one-letter escape), or the code unit of a \uXXXX escape. *)
Inductive item : Type :=
| Raw (b : N)
| Esc (u : N).

Definition leadingRaw (its : list item) : list N :=
  let get (it : item) := match it with Raw b => [b] | Esc _ => [] end in
  match its with
  | Raw b0 :: Raw b1 :: Raw b2 :: Raw b3 :: _ => [b0; b1; b2; b3]
  | Raw b0 :: Raw b1 :: Raw b2 :: _ => [b0; b1; b2]
  | Raw b0 :: Raw b1 :: _ => [b0; b1]
  | it :: _ => get it
  | [] => []
  end.

(** utf16.IsSurrogate *)
Definition IsSurrogate (u : N) : bool := (55296 <=? u) && (u <? 57344).

(** utf16.DecodeRune for a high and a low half, [None] for anything else. *)
Definition surrogatePair (u1 u2 : N) : option N :=
  if (55296 <=? u1) && (u1 <? 56320) && (56320 <=? u2) && (u2 <? 57344)
  then Some (N.lor (N.shiftl (u1 - 55296) 10) (u2 - 56320) + 65536)
  else None.

(** The library's [unquoteBytes], after the escapes have been read: bytes
    below 0x80 are copied, other bytes are decoded as UTF-8 and encoded
    again (an invalid byte becomes U+FFFD), a \u escape is encoded, two
    adjacent escapes that form a surrogate pair are one rune, and a lone
    surrogate becomes U+FFFD. *)
Fixpoint unquote (skip : nat) (its : list item) : list N :=
  match its with
  | [] => []
  | it :: rest =>
      match skip with
      | S k => unquote k rest
      | O =>
          match it with
          | Raw b =>
              if b <? utf8.RuneSelf then b :: unquote 0 rest
              else
                let '(r, size) := utf8.DecodeRune (leadingRaw its) in
                utf8.EncodeRune r ++ unquote (Nat.pred size) rest
          | Esc u =>
              if IsSurrogate u then
                match rest with
                | Esc u2 :: _ =>
                    match surrogatePair u u2 with
                    | Some r => utf8.EncodeRune r ++ unquote 1 rest
                    | None => utf8.EncodeRune utf8.RuneError ++ unquote 0 rest
                    end
                | _ => utf8.EncodeRune utf8.RuneError ++ unquote 0 rest
                end
              else utf8.EncodeRune u ++ unquote 0 rest
          end
      end
  end.

(** *** Tokens *)

Inductive token : Type :=
| TLBrace | TRBrace | TLBrack | TRBrack | TColon | TComma
| TString (s : list N)
| TNumber
| TTrue | TFalse | TNull.

(** Where the scanner is inside a number ([stateNeg], [state0], [state1],
    [stateDot], [stateDot0], [stateE], [stateESign], [stateE0]). *)
Inductive numstate : Type :=
| NNeg | NZero | NInt | NDot | NFrac | NExpMark | NExpSign | NExp.

Inductive mode : Type :=
| MDefault
| MString (acc : list item)
| MEscape (acc : list item)
| MUnicode (acc : list item) (n : nat) (u : N)
| MNumber (st : numstate)
| MLiteral (rest : list N) (t : token).

Definition isSpace (c : N) : bool :=
  (c =? 32) || (c =? 9) || (c =? 13) || (c =? 10).

Definition isDigit (c : N) : bool := (48 <=? c) && (c <=? 57).

Definition hexVal (c : N) : option N :=
  if isDigit c then Some (c - 48)
  else if (97 <=? c) && (c <=? 102) then Some (c - 87)
  else if (65 <=? c) && (c <=? 70) then Some (c - 55)
  else None.

(** A byte met between tokens. *)
Definition stepDefault (c : N) : option (list token * mode) :=
  if isSpace c then Some ([], MDefault)
  else if c =? 123 then Some ([TLBrace], MDefault)
  else if c =? 125 then Some ([TRBrace], MDefault)
  else if c =? 91 then Some ([TLBrack], MDefault)
  else if c =? 93 then Some ([TRBrack], MDefault)
  else if c =? 58 then Some ([TColon], MDefault)
  else if c =? 44 then Some ([TComma], MDefault)
  else if c =? 34 then Some ([], MString [])
  else if c =? 45 then Some ([], MNumber NNeg)
  else if c =? 48 then Some ([], MNumber NZero)
  else if isDigit c then Some ([], MNumber NInt)
  else if c =? 116 then Some ([], MLiteral [114; 117; 101] TTrue)
  else if c =? 102 then Some ([], MLiteral [97; 108; 115; 101] TFalse)
  else if c =? 110 then Some ([], MLiteral [117; 108; 108] TNull)
  else None.

(** The number continues with [c]. *)
Definition numNext (st : numstate) (c : N) : option numstate :=
  let isE := (c =? 101) || (c =? 69) in
  match st with
  | NNeg => if c =? 48 then Some NZero
            else if isDigit c then Some NInt else None
  | NZero => if c =? 46 then Some NDot
             else if isE then Some NExpMark else None
  | NInt => if isDigit c then Some NInt
            else if c =? 46 then Some NDot
            else if isE then Some NExpMark else None
  | NDot => if isDigit c then Some NFrac else None
  | NFrac => if isDigit c then Some NFrac
             else if isE then Some NExpMark else None
  | NExpMark => if (c =? 43) || (c =? 45) then Some NExpSign
                else if isDigit c then Some NExp else None
  | NExpSign => if isDigit c then Some NExp else None
  | NExp => if isDigit c then Some NExp else None
  end.

(** The number may end here. *)
Definition numDone (st : numstate) : bool :=
  match st with
  | NZero | NInt | NFrac | NExp => true
  | _ => false
  end.

Definition escapeByte (c : N) : option N :=
  if (c =? 34) || (c =? 92) || (c =? 47) then Some c
  else if c =? 98 then Some 8
  else if c =? 102 then Some 12
  else if c =? 110 then Some 10
  else if c =? 114 then Some 13
  else if c =? 116 then Some 9
  else None.

(** One byte of input: the tokens it completes and the next mode, or
    [None] for a syntax error. *)
Definition step (m : mode) (c : N) : option (list token * mode) :=
  match m with
  | MDefault => stepDefault c
  | MString acc =>
      if c =? 34 then Some ([TString (unquote 0 (rev acc))], MDefault)
      else if c =? 92 then Some ([], MEscape acc)
      else if c <? 32 then None
      else Some ([], MString (Raw c :: acc))
  | MEscape acc =>
      if c =? 117 then Some ([], MUnicode acc 0 0)
      else match escapeByte c with
           | Some b => Some ([], MString (Raw b :: acc))
           | None => None
           end
  | MUnicode acc n u =>
      match hexVal c with
      | Some h =>
          let u' := 16 * u + h in
          if Nat.eqb n 3 then Some ([], MString (Esc u' :: acc))
          else Some ([], MUnicode acc (S n) u')
      | None => None
      end
  | MNumber st =>
      match numNext st c with
      | Some st' => Some ([], MNumber st')
      | None =>
          if numDone st then
            match stepDefault c with
            | Some (ts, m') => Some (TNumber :: ts, m')
            | None => None
            end
          else None
      end
  | MLiteral rest t =>
      match rest with
      | [] => None
      | x :: rest' =>
          if c =? x then
            match rest' with
            | [] => Some ([t], MDefault)
            | _ => Some ([], MLiteral rest' t)
            end
          else None
      end
  end.

Fixpoint lex (m : mode) (bs : list N) : option (list token) :=
  match bs with
  | [] =>
      match m with
      | MDefault => Some []
      | MNumber st => if numDone st then Some [TNumber] else None
      | _ => None
      end
  | c :: rest =>
      match step m c with
      | Some (ts, m') =>
          match lex m' rest with
          | Some ts' => Some (ts ++ ts')
          | None => None
          end
      | None => None
      end
  end.

(** *** Values *)

Inductive value : Type :=
| VNull
| VBool (b : bool)
| VNumber
| VString (s : list N)
| VArray (vs : list value)
| VObject (ms : list (list N * value)).

(** An array or object that is still open. *)
Inductive frame : Type :=
| FArray (acc : list value)
| FObject (acc : list (list N * value)) (key : option (list N)).

(** What the parser may read next. *)
Inductive expect : Type :=
| EValue | EValueOrClose | EKeyOrClose | EKey | EColon | ECommaOrClose
| EDone (v : value).

Definition maxNestingDepth : N := 10000.

Definition pstate : Type := list frame * expect.

(** A value is complete: it ends the input or goes into the open frame. *)
Definition pushValue (v : value) (st : list frame) : option pstate :=
  match st with
  | [] => Some ([], EDone v)
  | FArray acc :: st' => Some (FArray (v :: acc) :: st', ECommaOrClose)
  | FObject acc (Some k) :: st' =>
      Some (FObject ((k, v) :: acc) None :: st', ECommaOrClose)
  | FObject _ None :: _ => None
  end.

Definition openFrame (f : frame) (e : expect) (st : list frame)
  : option pstate :=
  if N.of_nat (List.length (f :: st)) <=? maxNestingDepth
  then Some (f :: st, e) else None.

Definition scalar (t : token) : option value :=
  match t with
  | TString s => Some (VString s)
  | TNumber => Some VNumber
  | TTrue => Some (VBool true)
  | TFalse => Some (VBool false)
  | TNull => Some VNull
  | _ => None
  end.

Definition pstep (ps : pstate) (t : token) : option pstate :=
  let '(st, e) := ps in
  let beginValue :=
    match t with
    | TLBrack => openFrame (FArray []) EValueOrClose st
    | TLBrace => openFrame (FObject [] None) EKeyOrClose st
    | _ => match scalar t with
           | Some v => pushValue v st
           | None => None
           end
    end in
  let key :=
    match t, st with
    | TString k, FObject acc None :: st' =>
        Some (FObject acc (Some k) :: st', EColon)
    | _, _ => None
    end in
  let close :=
    match t, st with
    | TRBrack, FArray acc :: st' => pushValue (VArray (rev acc)) st'
    | TRBrace, FObject acc None :: st' => pushValue (VObject (rev acc)) st'
    | _, _ => None
    end in
  match e with
  | EValue => beginValue
  | EValueOrClose =>
      match t with TRBrack => close | _ => beginValue end
  | EKeyOrClose =>
      match t with TRBrace => close | _ => key end
  | EKey => key
  | EColon =>
      match t with TColon => Some (st, EValue) | _ => None end
  | ECommaOrClose =>
      match t, st with
      | TComma, FArray _ :: _ => Some (st, EValue)
      | TComma, FObject _ _ :: _ => Some (st, EKey)
      | _, _ => close
      end
  | EDone _ => None
  end.

Fixpoint prun (ps : pstate) (ts : list token) : option pstate :=
  match ts with
  | [] => Some ps
  | t :: rest =>
      match pstep ps t with
      | Some ps' => prun ps' rest
      | None => None
      end
  end.

(** The whole input as one JSON value, or [None] where the library's
    [checkValid] reports a syntax error. *)
Definition parse (data : list N) : option value :=
  match lex MDefault data with
  | Some ts =>
      match prun ([], EValue) ts with
      | Some ([], EDone v) => Some v
      | _ => None
      end
  | None => None
  end.

(** *** Storing into the struct *)

Definition caseMask : N := 223.

(** The library's [equalFoldRight], chosen by [foldFunc] for a field name
    that holds an s or a k: ASCII letters match without regard to case, and
    the long s (U+017F) and the Kelvin sign (U+212A) of the key match s
    and k of the name. *)
Fixpoint equalFoldRight (s t : list N) : bool :=
  match s with
  | [] => match t with [] => true | _ => false end
  | sb :: s' =>
      match t with
      | [] => false
      | tb :: t' =>
          if tb <? utf8.RuneSelf then
            if sb =? tb then equalFoldRight s' t'
            else
              let sbUpper := N.land sb caseMask in
              if (65 <=? sbUpper) && (sbUpper <=? 90)
                 && (sbUpper =? N.land tb caseMask)
              then equalFoldRight s' t'
              else false
          else
            let '(tr, size) := utf8.DecodeRune t in
            let special :=
              if (sb =? 115) || (sb =? 83) then tr =? 383
              else if (sb =? 107) || (sb =? 75) then tr =? 8490
              else false in
            special && equalFoldRight s' (skipn size t)
      end
  end.

(** The name of the struct's only field, from its tag. *)
Definition fieldName : list N := bytes_of_string "message".

(** The key names the field: exactly, or else under the fold. *)
Definition fieldMatches (key : list N) : bool :=
  (if list_eq_dec N.eq_dec key fieldName then true else false)
  || equalFoldRight fieldName key.

(** One member of the object: a string is stored into the field, null
    leaves it alone, any other value is an UnmarshalTypeError; the first
    error is kept and decoding goes on. *)
Definition storeMember (acc : list N * option error)
  (m : list N * value) : list N * option error :=
  let '(cur, err) := acc in
  let '(key, v) := m in
  if fieldMatches key then
    match v with
    | VString s => (s, err)
    | VNull => (cur, err)
    | _ => (cur, match err with
                 | Some e => Some e
                 | None => Some UnmarshalTypeError
                 end)
    end
  else acc.

(** json.Unmarshal(data, &maybeMessage) on a zero [maybeMessage]: the
    field Message afterwards, and the error returned. *)
Definition Unmarshal (data : string) : string * option error :=
  match parse (bytes_of_string data) with
  | None => (EmptyString, Some SyntaxError)
  | Some (VObject ms) =>
      let '(msg, err) := fold_left storeMember ms ([], None) in
      (string_of_bytes msg, err)
  | Some VNull => (EmptyString, None)
  | Some _ => (EmptyString, Some UnmarshalTypeError)
  end.

End json.

(** ** Package regexp

    The program hands patterns from its configuration to the library; the
    syntax and the matching algorithm are the library's.  They are taken
    here as an interface, and the program is modelled over any engine. *)

Module regexp.

Class Engine : Type := {
  (** a compiled expression *)
  Regexp : Type;
  (** regexp.Compile: the compiled expression, or the parse error *)
  Compile : string -> Regexp + string;
  (** the method MatchString of a compiled expression: the text
      contains a match *)
  Matches : Regexp -> string -> bool
}.

(** regexp.MatchString(pattern, s): compiles, then searches. *)
Definition MatchString `{Engine} (pattern s : string) : bool * option string :=
  match Compile pattern with
  | inl re => (Matches re s, None)
  | inr e => (false, Some e)
  end.

(** The characters with a meaning in the pattern syntax
    (regexp.QuoteMeta escapes exactly these). *)
Definition special (c : ascii) : bool :=
  existsb (Ascii.eqb c)
    (list_ascii_of_string "\.+*?()|[]{}^$").

Definition isLiteral (pattern : string) : bool :=
  forallb (fun c => negb (special c) && (byte_val c <? 128)%N)
    (list_ascii_of_string pattern).

(** A literal pattern with one opening parenthesis put after it, as
    [deploy(]: the library's parser ends with the group still open. *)
Definition unclosedGroup (pattern : string) : bool :=
  match rev (list_ascii_of_string pattern) with
  | c :: before =>
      Ascii.eqb c "("
      && forallb (fun c => negb (special c) && (byte_val c <? 128)%N) before
  | [] => false
  end.

(** The engine of the worked examples, faithful to the library on two
    kinds of pattern.  A pattern of plain ASCII characters stands for
    itself and matches wherever it occurs in the text.  A pattern with an
    unclosed group is the library's parse error for a missing closing
    parenthesis, which quotes the whole pattern.  Every other pattern is
    outside the instance: it refuses them all, also those the library
    compiles, and its text for them is its own.  The general statements
    below are over any engine, and no example has such a pattern. *)
#[export] Instance literalEngine : Engine := {
  Regexp := string;
  Compile pattern :=
    if isLiteral pattern then inl pattern
    else if unclosedGroup pattern
    then inr ("error parsing regexp: missing closing ): `" ++ pattern
              ++ "`")%string
    else inr "pattern outside the literal engine"%string;
  Matches re s := strings.Contains s re
}.

End regexp.

(** ** Package context *)

Module context.

(** What ctx.Err() returns once the context is done. *)
Inductive error : Type :=
| DeadlineExceeded
| Canceled.

End context.

(** ** Package os/exec *)

Module exec.

(** exec.Cmd, the fields the program sets.  [Args] holds the command name
    first, as the library stores it.  The field Path, which the library
    fills by looking the name up in PATH, is left out: the command is
    named by the head of [Args]. *)
Record Cmd : Type := {
  Args : list string;
  Env : list string;
  Dir : string;
  Stdin : option string
}.

(** exec.CommandContext(ctx, name, arg...) *)
Definition CommandContext (name : string) (arg : list string) : Cmd :=
  {| Args := name :: arg; Env := []; Dir := EmptyString; Stdin := None |}.

(** The errors of Cmd.Output: an exec.ExitError with the exit code and the
    captured standard error, or the error of a command that did not
    start. *)
Inductive Error : Type :=
| ExitError (ExitCode : Z) (Stderr : string)
| StartError (msg : string).

(** What became of a command. *)
Inductive ProcResult : Type :=
| Exited (code : Z) (stdout stderr : string)
| StartFailed (msg : string).

(** What Cmd.Output keeps of the standard error for ExitError.Stderr
    (the library's prefixSuffixSaver with N = 32 KiB): all of it up to
    64 KiB; of a longer one the first and the last 32 KiB, with a line
    between them that tells how many bytes were left out. *)
Definition captured (stderr : string) : string :=
  let len := String.length stderr in
  if (N.of_nat len <=? 65536)%N then stderr
  else
    let half := N.to_nat 32768 in
    (String.substring 0 half stderr
     ++ String "010" "... omitting "
     ++ fmt.d (Z.of_nat len - 65536)
     ++ " bytes ..." ++ String "010" EmptyString
     ++ String.substring (len - half) half stderr)%string.

(** Cmd.Output: the captured standard output and the error of Run.  A
    command that exits with status 0 gives no error; one that does not
    start has written nothing. *)
Definition Output (r : ProcResult) : string * option Error :=
  match r with
  | Exited code stdout stderr =>
      if (code =? 0)%Z then (stdout, None)
      else (stdout, Some (ExitError code (captured stderr)))
  | StartFailed msg => (EmptyString, Some (StartError msg))
  end.

(** The value of [key] a started process finds in its environment: when
    Env holds a key more than once, the library passes on the last entry
    only.  Entries without '=' define nothing. *)
Fixpoint Getenv (env : list string) (key : string) : option string :=
  match env with
  | [] => None
  | kv :: rest =>
      match Getenv rest key with
      | Some v => Some v
      | None =>
          match strings.cut "="%char kv with
          | Some (k, v) => if String.eqb k key then Some v else None
          | None => None
          end
      end
  end.

End exec.

(** ** Package tgbotapi *)

Module tgbotapi.

Record Chat : Type := { Chat_ID : Z }.

Record User : Type := { User_ID : Z; FirstName : string }.

Inductive Message : Type := mkMessage {
  MessageID : Z;
  From : option User;
  Chat_ : option Chat;
  ReplyToMessage : option Message;
  Text : string
}.

Record Update : Type := { Update_Message : option Message }.

Record ReplyKeyboardRemove : Type := {
  RemoveKeyboard : bool;
  Selective : bool
}.

Record MessageConfig : Type := {
  ChatID : Z;
  ReplyToMessageID : Z;
  ReplyMarkup : option ReplyKeyboardRemove;
  MessageConfig_Text : string
}.

(** tgbotapi.NewMessage *)
Definition NewMessage (chatID : Z) (text : string) : MessageConfig :=
  {| ChatID := chatID; ReplyToMessageID := 0%Z; ReplyMarkup := None;
     MessageConfig_Text := text |}.

(** tgbotapi.NewRemoveKeyboard *)
Definition NewRemoveKeyboard (selective : bool) : ReplyKeyboardRemove :=
  {| RemoveKeyboard := true; Selective := selective |}.

(** A value of the interface Chattable, with its dynamic type: a
    MessageConfig, or a pointer to one. *)
Inductive Chattable : Type :=
| OfMessageConfig (m : MessageConfig)
| OfMessageConfigPtr (m : MessageConfig).

Definition config (c : Chattable) : MessageConfig :=
  match c with
  | OfMessageConfig m => m
  | OfMessageConfigPtr m => m
  end.

End tgbotapi.

(** ** What one handler run does

    The handler of an update logs, starts a command and sends a reply.
    These effects are recorded in order; a run ends by falling off the end
    of the function, by a [return], or by a Go panic. *)

Inductive Level : Type := LInfo | LDebug | LError.

Inductive Event : Type :=
| Log (l : Level) (msg : string)
| Exec (cmd : exec.Cmd)
| Send (c : tgbotapi.Chattable).

Inductive Flow (A : Type) : Type :=
| Next (a : A)
| Return
| Panic (reason : string).

Arguments Next {A} a.
Arguments Return {A}.
Arguments Panic {A} reason.

Definition Task (A : Type) : Type := list Event * Flow A.

Definition ret {A : Type} (a : A) : Task A := ([], Next a).

Definition bind {A B : Type} (m : Task A) (k : A -> Task B) : Task B :=
  match m with
  | (tr, Next a) => let '(tr', f) := k a in (tr ++ tr', f)
  | (tr, Return) => (tr, Return)
  | (tr, Panic reason) => (tr, Panic reason)
  end.

Definition emit (e : Event) : Task unit := ([e], Next tt).

Definition return_ {A : Type} : Task A := ([], Return).

Definition panic {A : Type} (reason : string) : Task A := ([], Panic reason).

Notation "x <- m ;; k" := (bind m (fun x => k))
  (at level 61, m at next level, right associativity).

Notation "m ;;; k" := (bind m (fun _ => k))
  (at level 61, right associativity).

(** The events of a run, and the replies among them. *)
Definition trace {A : Type} (m : Task A) : list Event := fst m.

Definition sends (tr : list Event) : list tgbotapi.Chattable :=
  flat_map (fun e => match e with Send c => [c] | _ => [] end) tr.

Definition execs (tr : list Event) : list exec.Cmd :=
  flat_map (fun e => match e with Exec c => [c] | _ => [] end) tr.

(** A call that returns values or panics. *)
Inductive outcome (A : Type) : Type :=
| Returns (a : A)
| Panics (reason : string).

Arguments Returns {A} a.
Arguments Panics {A} reason.

Definition call {A : Type} (o : outcome A) : Task A :=
  match o with
  | Returns a => ret a
  | Panics reason => panic reason
  end.

Definition nilDeref : string :=
  "invalid memory address or nil pointer dereference".

(** What the handler meets outside the program: the inherited
    environment, what becomes of a command it runs, the state of the
    command's context when Output has returned, and whether the transport
    accepts a reply. *)
Record World : Type := {
  os_Environ : list string;
  cmd_Run : exec.Cmd -> exec.ProcResult;
  ctx_Err : exec.Cmd -> option context.error;
  bot_Send : tgbotapi.Chattable -> option string
}.

(** ** internal/telecmd *)

Module telecmd.

Import tgbotapi.

(** *** types.go *)

Record Rule : Type := {
  Name : string;
  Pattern : string;
  WorkingDirectory : string;
  UseStdin : bool;
  Environment : list string;
  Command : list string
}.

(** The zero value Rule{} *)
Definition zeroRule : Rule :=
  {| Name := EmptyString; Pattern := EmptyString;
     WorkingDirectory := EmptyString; UseStdin := false;
     Environment := []; Command := [] |}.

Record Config : Type := {
  BotToken : string;
  Debug : bool;
  Rules : list Rule;
  CommandTimeout : string
}.

Record Telecmd : Type := { config : Config }.

Definition New (c : Config) : Telecmd := {| config := c |}.

Section WithEngine.

Context `{regexp.Engine}.

(** func (r Rule) Validate() error; [None] is the nil error. *)
Definition Rule_Validate (r : Rule) : option string :=
  match regexp.Compile (Pattern r) with
  | inr err => Some ("invalid regex: " ++ err)%string
  | inl _ =>
      if Nat.eqb (List.length (Command r)) 0
      then Some "invalid command"%string
      else None
  end.

(** The loop of Config.Validate from index [i] on. *)
Fixpoint validateRules (i : nat) (rules : list Rule) : option string :=
  match rules with
  | [] => None
  | rule :: rest =>
      match Rule_Validate rule with
      | Some err =>
          Some ("invalid rule " ++ fmt.d (Z.of_nat i) ++ ": " ++ err)%string
      | None => validateRules (S i) rest
      end
  end.

(** func (c Config) Validate() error *)
Definition Config_Validate (c : Config) : option string :=
  if Nat.eqb (List.length (Rules c)) 0
  then Some "rule list cannot be empty"%string
  else validateRules 0 (Rules c).

(** *** telecmd.go *)

(** The loop of ruleFromMessage over the rules that are left. *)
Fixpoint firstMatch (rules : list Rule) (text : string) : Rule * bool :=
  match rules with
  | [] => (zeroRule, false)
  | rule :: rest =>
      let '(ok, _) := regexp.MatchString (Pattern rule) text in
      if ok then (rule, true) else firstMatch rest text
  end.

(** func (t Telecmd) ruleFromMessage(message) (Rule, bool) *)
Definition ruleFromMessage (t : Telecmd) (message : Message) : Rule * bool :=
  firstMatch (Rules (config t)) (Text message).

End WithEngine.

(** func (t Telecmd) runCommand(ctx, cmd) (string, error), given what
    cmd.Output() returned ([res]) and what ctx.Err() returns after it
    ([ctxErr]).  An error that is neither a passed deadline nor an
    ExitError falls through both branches to the last return. *)
Definition runCommand (ctxErr : option context.error)
  (res : string * option exec.Error) : string * option string :=
  let '(out, err) := res in
  match err with
  | Some e =>
      match ctxErr with
      | Some context.DeadlineExceeded =>
          (EmptyString, Some "command took too long to finish"%string)
      | _ =>
          match e with
          | exec.ExitError code stderr =>
              (EmptyString,
               Some ("command exited with code=" ++ fmt.d code
                     ++ String "010" (String "010" EmptyString)
                     ++ stderr)%string)
          | _ => (out, None)
          end
      end
  | None => (out, None)
  end.

(** func envsFromUpdate(message) []string *)
Definition envsFromUpdate (message : option Message) : list string :=
  match message with
  | None => []
  | Some message =>
      let envs := [] in
      let envs :=
        match Chat_ message with
        | Some chat =>
            envs ++ [("TELEGRAM_CHAT_ID=" ++ fmt.d (Chat_ID chat))%string]
        | None => envs
        end in
      let envs :=
        match From message with
        | Some from =>
            envs
            ++ [("TELEGRAM_FROM_USER_ID=" ++ fmt.d (User_ID from))%string]
        | None => envs
        end in
      let envs :=
        match ReplyToMessage message with
        | Some replied =>
            envs
            ++ [("TELEGRAM_REPLY_TO_MESSAGE_ID="
                 ++ fmt.d (MessageID replied))%string;
                ("TELEGRAM_REPLY_TO_MESSAGE_TEXT=" ++ Text replied)%string]
        | None => envs
        end in
      envs
  end.

(** func commandFromMessage(ctx, rule, message) (exec.Cmd, error), with
    os.Environ() as [environ].  Indexing an empty [args] panics.  The
    function logs "running command" once [args] has been taken apart;
    the handler below records that event where the call returns. *)
Definition commandFromMessage (environ : list string) (rule : Rule)
  (message : Message) : outcome (exec.Cmd * option string) :=
  let args := Command rule in
  let '(stdin, args) :=
    if UseStdin rule then (Some (Text message), args)
    else (None, args ++ ["--"%string; Text message]) in
  match args with
  | [] => Panics "index out of range [0] with length 0"
  | exe :: cmdArgs =>
      let cmd := exec.CommandContext exe cmdArgs in
      let dir :=
        if negb (String.eqb (WorkingDirectory rule) EmptyString)
        then WorkingDirectory rule else exec.Dir cmd in
      let env := environ in
      let env := env ++ Environment rule in
      let env := env ++ envsFromUpdate (Some message) in
      Returns ({| exec.Args := exec.Args cmd; exec.Env := env;
                  exec.Dir := dir; exec.Stdin := stdin |},
               None)
  end.

(** The message both branches of chattableFromStdout build. *)
Definition textMessage (chatID : Z) (text : string) : MessageConfig :=
  let m := NewMessage chatID text in
  {| ChatID := ChatID m; ReplyToMessageID := ReplyToMessageID m;
     ReplyMarkup := Some (NewRemoveKeyboard false);
     MessageConfig_Text := MessageConfig_Text m |}.

(** func chattableFromStdout(chatID, output) (tgbotapi.Chattable, error) *)
Definition chattableFromStdout (chatID : Z) (output : string)
  : option Chattable * option string :=
  if negb (strings.HasPrefix (strings.TrimSpace output) "{") then
    (Some (OfMessageConfig (textMessage chatID output)), None)
  else
    let '(maybeMessage, err) := json.Unmarshal output in
    match err with
    | None => (Some (OfMessageConfig (textMessage chatID maybeMessage)), None)
    | Some _ => (None, Some "unknown output format"%string)
    end.

Section Handler.

Context `{regexp.Engine}.

(** The handler of Run up to the test of [output]: the matched rule's
    command has run, and [output] is its standard output or the text of
    runCommand's error. *)
Definition commandOutput (t : Telecmd) (w : World) (update : Update)
  : Task (Message * string) :=
  match Update_Message update with
  | None => return_
  | Some message =>
      match From message with
      | None => panic nilDeref
      | Some _ =>
          emit (Log LInfo "got message") ;;;
          let '(rule, ok) := ruleFromMessage t message in
          if negb ok then emit (Log LDebug "no matching rule") ;;; return_
          else
            emit (Log LDebug "matched rule") ;;;
            built <- call (commandFromMessage (os_Environ w) rule message) ;;
            emit (Log LDebug "running command") ;;;
            let '(cmd, err) := built in
            match err with
            | Some _ => emit (Log LError "cannot parse command") ;;; return_
            | None =>
                emit (Exec cmd) ;;;
                let '(output, err) :=
                  runCommand (ctx_Err w cmd) (exec.Output (cmd_Run w cmd)) in
                match err with
                | Some e =>
                    emit (Log LDebug "command finished with error") ;;;
                    ret (message, e)
                | None => ret (message, output)
                end
            end
      end
  end.

(** The rest of the handler: from the test of [output] to the send.  The
    type switch names the pointer type, and chattableFromStdout returns
    a MessageConfig value. *)
Definition reply (w : World) (message : Message) (output : string)
  : Task unit :=
  if String.eqb output EmptyString then return_
  else
    match Chat_ message with
    | None => panic nilDeref
    | Some chat =>
        let '(m, err) := chattableFromStdout (Chat_ID chat) output in
        match err, m with
        | Some _, _ => emit (Log LError "cannot parse stdout") ;;; return_
        | None, None => panic nilDeref
        | None, Some m =>
            let m :=
              match m with
              | OfMessageConfigPtr v =>
                  OfMessageConfigPtr
                    {| ChatID := ChatID v;
                       ReplyToMessageID := MessageID message;
                       ReplyMarkup := ReplyMarkup v;
                       MessageConfig_Text := MessageConfig_Text v |}
              | OfMessageConfig _ => m
              end in
            emit (Send m) ;;;
            match bot_Send w m with
            | Some _ => emit (Log LError "failed to reply") ;;; return_
            | None => ret tt
            end
        end
    end.

(** The function Run hands to the pool for one update. *)
Definition handleUpdate (t : Telecmd) (w : World) (update : Update)
  : Task unit :=
  r <- commandOutput t w update ;;
  reply w (fst r) (snd r).

End Handler.

End telecmd.

(** ** The single-file main

    The earlier program, where the handler's steps are written out in
    [main].  Its Rule has no UseStdin and no Environment. *)

Module legacy.

Record Rule : Type := {
  Name : string;
  Pattern : string;
  WorkingDirectory : string;
  Command : list string
}.

Definition zeroRule : Rule :=
  {| Name := EmptyString; Pattern := EmptyString;
     WorkingDirectory := EmptyString; Command := [] |}.

Record Config : Type := {
  Rules : list Rule;
  CommandTimeout : string
}.

(** The variables of the matching loop.  The module is built as Go 1.19:
    [rule] is one variable for the whole loop, and [matchedRule], when it
    is not nil, holds the address of that variable. *)
Inductive pointer : Type := AddrOfRule.

Record loopVars : Type := {
  rule : Rule;
  matchedRule : option pointer
}.

Section WithEngine.

Context `{regexp.Engine}.

Definition Rule_Validate (r : Rule) : option string :=
  match regexp.Compile (Pattern r) with
  | inr err => Some ("invalid regex: " ++ err)%string
  | inl _ =>
      if Nat.eqb (List.length (Command r)) 0
      then Some "invalid command"%string
      else None
  end.

Fixpoint validateRules (i : nat) (rules : list Rule) : option string :=
  match rules with
  | [] => None
  | r :: rest =>
      match Rule_Validate r with
      | Some err =>
          Some ("invalid rule " ++ fmt.d (Z.of_nat i) ++ ": " ++ err)%string
      | None => validateRules (S i) rest
      end
  end.

Definition Config_Validate (c : Config) : option string :=
  if Nat.eqb (List.length (Rules c)) 0
  then Some "rule list cannot be empty"%string
  else validateRules 0 (Rules c).

(** One iteration: the element is copied into [rule], then tested. *)
Definition loopBody (chatMessage : string) (vars : loopVars) (elem : Rule)
  : loopVars :=
  let vars := {| rule := elem; matchedRule := matchedRule vars |} in
  let '(ok, _) := regexp.MatchString (Pattern (rule vars)) chatMessage in
  if ok then {| rule := rule vars; matchedRule := Some AddrOfRule |}
  else vars.

(** The loop of main over config.Rules and the read of [matchedRule]
    after it: [None] where main logs that no rule matches, else the rule
    the pointer leads to. *)
Definition matchRule (c : Config) (chatMessage : string) : option Rule :=
  let vars :=
    fold_left (loopBody chatMessage) (Rules c)
      {| rule := zeroRule; matchedRule := None |} in
  match matchedRule vars with
  | None => None
  | Some AddrOfRule => Some (rule vars)
  end.

(** func envsFromUpdate(update tgbotapi.Update) []string *)
Definition envsFromUpdate (update : tgbotapi.Update) : list string :=
  let envs := [] in
  match tgbotapi.Update_Message update with
  | Some m =>
      let envs :=
        match tgbotapi.Chat_ m with
        | Some chat =>
            envs
            ++ [("TELEGRAM_CHAT_ID=" ++ fmt.d (tgbotapi.Chat_ID chat))%string]
        | None => envs
        end in
      let envs :=
        match tgbotapi.From m with
        | Some from =>
            envs
            ++ [("TELEGRAM_FROM_USER_ID="
                 ++ fmt.d (tgbotapi.User_ID from))%string]
        | None => envs
        end in
      match tgbotapi.ReplyToMessage m with
      | Some replied =>
          envs
          ++ [("TELEGRAM_REPLY_TO_MESSAGE_ID="
               ++ fmt.d (tgbotapi.MessageID replied))%string;
              ("TELEGRAM_REPLY_TO_MESSAGE_TEXT="
               ++ tgbotapi.Text replied)%string]
      | None => envs
      end
  | None => envs
  end.

(** func chattableFromStdout(chatID, output), main's own copy. *)
Definition chattableFromStdout (chatID : Z) (output : string)
  : option tgbotapi.Chattable * option string :=
  if negb (strings.HasPrefix (strings.TrimSpace output) "{") then
    let m := tgbotapi.NewMessage chatID output in
    (Some (tgbotapi.OfMessageConfig
             {| tgbotapi.ChatID := tgbotapi.ChatID m;
                tgbotapi.ReplyToMessageID := tgbotapi.ReplyToMessageID m;
                tgbotapi.ReplyMarkup :=
                  Some (tgbotapi.NewRemoveKeyboard false);
                tgbotapi.MessageConfig_Text :=
                  tgbotapi.MessageConfig_Text m |}), None)
  else
    let '(maybeMessage, err) := json.Unmarshal output in
    match err with
    | None =>
        let m := tgbotapi.NewMessage chatID maybeMessage in
        (Some (tgbotapi.OfMessageConfig
                 {| tgbotapi.ChatID := tgbotapi.ChatID m;
                    tgbotapi.ReplyToMessageID := tgbotapi.ReplyToMessageID m;
                    tgbotapi.ReplyMarkup :=
                      Some (tgbotapi.NewRemoveKeyboard false);
                    tgbotapi.MessageConfig_Text :=
                      tgbotapi.MessageConfig_Text m |}), None)
    | Some _ => (None, Some "unknown output format"%string)
    end.

(** The timeout of the configuration as the verb %v prints it
    (config.CommandTimeoutDuration(), a time.Duration): parsing and
    printing durations are the library's. *)
Variable timeoutText : Config -> string.

(** The second half of main's handler, from the test of [reply] on. *)
Definition sendReply (w : World) (message : tgbotapi.Message)
  (reply : string) : Task unit :=
  if String.eqb reply EmptyString then return_
  else
    match tgbotapi.Chat_ message with
    | None => panic nilDeref
    | Some chat =>
        let '(m, err) := chattableFromStdout (tgbotapi.Chat_ID chat) reply in
        match err, m with
        | Some _, _ => emit (Log LError "cannot parse stdout") ;;; return_
        | None, None => panic nilDeref
        | None, Some m =>
            let m :=
              match m with
              | tgbotapi.OfMessageConfigPtr v =>
                  tgbotapi.OfMessageConfigPtr
                    {| tgbotapi.ChatID := tgbotapi.ChatID v;
                       tgbotapi.ReplyToMessageID :=
                         tgbotapi.MessageID message;
                       tgbotapi.ReplyMarkup := tgbotapi.ReplyMarkup v;
                       tgbotapi.MessageConfig_Text :=
                         tgbotapi.MessageConfig_Text v |}
              | tgbotapi.OfMessageConfig _ => m
              end in
            emit (Send m) ;;;
            match bot_Send w m with
            | Some _ => emit (Log LError "failed to reply") ;;; return_
            | None => ret tt
            end
        end
    end.

(** The function main hands to the pool for one update.  It reads
    update.Message.Text first, with no test of update.Message before; the
    test further down comes after these reads. *)
Definition handleUpdate (c : Config) (w : World) (update : tgbotapi.Update)
  : Task unit :=
  match tgbotapi.Update_Message update with
  | None => panic nilDeref
  | Some message =>
      let chatMessage := tgbotapi.Text message in
      match tgbotapi.From message with
      | None => panic nilDeref
      | Some _ =>
          emit (Log LInfo "got message") ;;;
          match matchRule c chatMessage with
          | None => emit (Log LDebug "no matching rule") ;;; return_
          | Some matched =>
              emit (Log LDebug "matched rule") ;;;
              let args := Command matched in
              let args := args ++ ["--"%string; tgbotapi.Text message] in
              match args with
              | [] => panic "index out of range [0] with length 0"
              | exe :: cmdArgs =>
                  emit (Log LDebug "running command") ;;;
                  let cmd := exec.CommandContext exe cmdArgs in
                  let dir :=
                    if negb (String.eqb (WorkingDirectory matched)
                               EmptyString)
                    then WorkingDirectory matched else exec.Dir cmd in
                  let env := os_Environ w ++ envsFromUpdate update in
                  let cmd :=
                    {| exec.Args := exec.Args cmd; exec.Env := env;
                       exec.Dir := dir; exec.Stdin := exec.Stdin cmd |} in
                  emit (Exec cmd) ;;;
                  let '(out, err) := exec.Output (cmd_Run w cmd) in
                  reply <-
                    match err with
                    | Some e =>
                        emit (Log LDebug "command finished with error") ;;;
                        match ctx_Err w cmd with
                        | Some context.DeadlineExceeded =>
                            ret ("error: command timed out after "
                                 ++ timeoutText c)%string
                        | _ =>
                            match e with
                            | exec.ExitError code stderr =>
                                ret ("error: command exited with code="
                                     ++ fmt.d code
                                     ++ String "010"
                                          (String "010" EmptyString)
                                     ++ stderr)%string
                            | _ => ret EmptyString
                            end
                        end
                    | None => ret out
                    end ;;
                  sendReply w message reply
              end
          end
      end
  end.

End WithEngine.

End legacy.

(** ** internal/version *)

Module version.

Record Version : Type := {
  Commit : string;
  CommitTime : string
}.

(** func (v Version) String() string *)
Definition Version_String (v : Version) : string :=
  (CommitTime v ++ "." ++ Commit v)%string.

(** debug.BuildSetting *)
Record BuildSetting : Type := {
  Key : string;
  Value : string
}.

(** The loop of GitVersion over build.Settings.  The slice expression
    setting.Value[:7] panics on a value of fewer than seven bytes. *)
Fixpoint scanSettings (info : Version) (settings : list BuildSetting)
  : outcome Version :=
  match settings with
  | [] => Returns info
  | setting :: rest =>
      if String.eqb (Key setting) "vcs.revision" then
        if Nat.ltb (String.length (Value setting)) 7 then
          Panics ("slice bounds out of range [:7] with length "
                  ++ fmt.d (Z.of_nat (String.length (Value setting))))%string
        else
          scanSettings
            {| Commit := String.substring 0 7 (Value setting);
               CommitTime := CommitTime info |} rest
      else if String.eqb (Key setting) "vcs.time" then
        scanSettings
          {| Commit := Commit info; CommitTime := Value setting |} rest
      else scanSettings info rest
  end.

(** func GitVersion() Version, given what debug.ReadBuildInfo() returns:
    the settings of the build, or [None] when there is no build
    information. *)
Definition GitVersion (build : option (list BuildSetting))
  : outcome Version :=
  let info := {| Commit := EmptyString; CommitTime := EmptyString |} in
  match build with
  | Some settings => scanSettings info settings
  | None => Returns info
  end.

End version.

(** ** Inputs of the worked examples *)

Module sample.

Import tgbotapi.

(** The byte 0x22, and a JSON string literal without escapes. *)
Definition dquote : string := String "034" EmptyString.

Definition quoted (s : string) : string := (dquote ++ s ++ dquote)%string.

(** The text [{"message":"v"}]. *)
Definition messageObject (v : string) : string :=
  ("{" ++ quoted "message" ++ ":" ++ quoted v ++ "}")%string.









(** The text [{"message":"hi","Message":5}]. *)
Definition numberObject : string :=
  ("{" ++ quoted "message" ++ ":" ++ quoted "hi" ++ ","
   ++ quoted "Message" ++ ":5}")%string.

Definition user : User := {| User_ID := 42%Z; FirstName := "Ada" |}.

Definition chat : Chat := {| Chat_ID := (-1001)%Z |}.

Definition message (text : string) : Message :=
  {| MessageID := 7%Z; From := Some user; Chat_ := Some chat;
     ReplyToMessage := None; Text := text |}.

Definition replyTo (text : string) : Message :=
  {| MessageID := 8%Z; From := Some user; Chat_ := Some chat;
     ReplyToMessage := Some (message "earlier"); Text := text |}.

Definition update (text : string) : Update :=
  {| Update_Message := Some (message text) |}.

Definition echoRule : telecmd.Rule :=
  {| telecmd.Name := "echo"; telecmd.Pattern := "deploy";
     telecmd.WorkingDirectory := EmptyString; telecmd.UseStdin := false;
     telecmd.Environment := ["STAGE=prod"%string];
     telecmd.Command := ["echo"%string; "-n"%string] |}.

Definition catRule : telecmd.Rule :=
  {| telecmd.Name := "cat"; telecmd.Pattern := "deploy";
     telecmd.WorkingDirectory := "/srv"; telecmd.UseStdin := true;
     telecmd.Environment := []; telecmd.Command := ["cat"%string] |}.

(** A rule whose fixed argument is the text "hi". *)
Definition grepRule : telecmd.Rule :=
  {| telecmd.Name := "grep"; telecmd.Pattern := "hi";
     telecmd.WorkingDirectory := EmptyString; telecmd.UseStdin := true;
     telecmd.Environment := [];
     telecmd.Command := ["grep"%string; "hi"%string] |}.

(** A rule no validated configuration holds: its command is empty. *)
Definition emptyRule : telecmd.Rule :=
  {| telecmd.Name := "empty"; telecmd.Pattern := "deploy";
     telecmd.WorkingDirectory := EmptyString; telecmd.UseStdin := false;
     telecmd.Environment := []; telecmd.Command := [] |}.

Definition config (rules : list telecmd.Rule) : telecmd.Config :=
  {| telecmd.BotToken := "token"; telecmd.Debug := false;
     telecmd.Rules := rules; telecmd.CommandTimeout := "5s" |}.

(** A world where every command ends as [r], no deadline has passed and
    the transport accepts every reply. *)
Definition world (r : exec.ProcResult) : World :=
  {| os_Environ := ["PATH=/usr/bin"%string; "STAGE=dev"%string];
     cmd_Run := fun _ => r;
     ctx_Err := fun _ => None;
     bot_Send := fun _ => None |}.

(** The same with the command's deadline passed. *)
Definition lateWorld (r : exec.ProcResult) : World :=
  {| os_Environ := os_Environ (world r);
     cmd_Run := fun _ => r;
     ctx_Err := fun _ => Some context.DeadlineExceeded;
     bot_Send := fun _ => None |}.

Definition legacyFirst : legacy.Rule :=
  {| legacy.Name := "first"; legacy.Pattern := "deploy";
     legacy.WorkingDirectory := EmptyString;
     legacy.Command := ["one"%string] |}.

Definition legacySecond : legacy.Rule :=
  {| legacy.Name := "second"; legacy.Pattern := "deploy";
     legacy.WorkingDirectory := EmptyString;
     legacy.Command := ["two"%string] |}.

(** A rule that does not match the text "deploy now". *)
Definition legacyOther : legacy.Rule :=
  {| legacy.Name := "other"; legacy.Pattern := "status";
     legacy.WorkingDirectory := EmptyString;
     legacy.Command := ["three"%string] |}.

Definition legacyConfig (rules : list legacy.Rule) : legacy.Config :=
  {| legacy.Rules := rules; legacy.CommandTimeout := "5s" |}.

(** The rules [first; second] in the newer Rule type. *)
Definition first : telecmd.Rule :=
  {| telecmd.Name := "first"; telecmd.Pattern := "deploy";
     telecmd.WorkingDirectory := EmptyString; telecmd.UseStdin := false;
     telecmd.Environment := []; telecmd.Command := ["one"%string] |}.

Definition second : telecmd.Rule :=
  {| telecmd.Name := "second"; telecmd.Pattern := "deploy";
     telecmd.WorkingDirectory := EmptyString; telecmd.UseStdin := false;
     telecmd.Environment := []; telecmd.Command := ["two"%string] |}.

(** The command built from [echoRule] for the message "deploy now" in
    the environment of [world]. *)
Definition echoCmd : exec.Cmd :=
  {| exec.Args := ["echo"; "-n"; "--"; "deploy now"]%string;
     exec.Env := ["PATH=/usr/bin"; "STAGE=dev"; "STAGE=prod";
                  "TELEGRAM_CHAT_ID=-1001";
                  "TELEGRAM_FROM_USER_ID=42"]%string;
     exec.Dir := EmptyString;
     exec.Stdin := None |}.

(** A text of [n] bytes. *)
Fixpoint filler (n : nat) : string :=
  match n with
  | O => EmptyString
  | S k => String "x" (filler k)
  end.

(** A rule whose pattern does not compile. *)
Definition brokenRule : telecmd.Rule :=
  {| telecmd.Name := "broken"; telecmd.Pattern := "deploy(";
     telecmd.WorkingDirectory := EmptyString; telecmd.UseStdin := false;
     telecmd.Environment := []; telecmd.Command := ["zero"%string] |}.

End sample.

(** ** Reading the results

    Three projections the statements below use. *)

(** A rule matches the text as the program tests it: the first result of
    regexp.MatchString, its error dropped. *)
Definition matchesText `{regexp.Engine} (text pattern : string) : bool :=
  fst (regexp.MatchString pattern text).

(** The reply body of an interpreted output. *)
Definition body (r : option tgbotapi.Chattable * option string)
  : option string :=
  match r with
  | (Some c, None) => Some (tgbotapi.MessageConfig_Text (tgbotapi.config c))
  | _ => None
  end.

(** The variable [output] of the handler once the command has run: the
    text of runCommand's error if there is one, else what it returned. *)
Definition outputText (r : string * option string) : string :=
  match r with
  | (_, Some e) => e
  | (out, None) => out
  end.

(** An ASCII white-space byte, as the table [asciiSpace] of package
    strings has it: tab, line feed, vertical tab, form feed, carriage
    return, space. *)
Definition asciiSpace (c : ascii) : bool :=
  let b := byte_val c in
  (b =? 9) || (b =? 10) || (b =? 11) || (b =? 12) || (b =? 13) || (b =? 32).

(** What the interpreter makes of an output that it takes for JSON. *)
Definition decoded (output : string) : option string :=
  match json.Unmarshal output with
  | (message, None) => Some message
  | (_, Some _) => None
  end.




(** The rule passes Rule.Validate's two tests. *)
Definition wellFormed `{regexp.Engine} (r : telecmd.Rule) : Prop :=
  (exists re, regexp.Compile (telecmd.Pattern r) = inl re)
  /\ telecmd.Command r <> [].

(** * Properties *)

(** ** Runs and their traces *)

Section Traces.

Lemma sends_app (tr tr' : list Event) :
  sends (tr ++ tr') = sends tr ++ sends tr'.
Proof. unfold sends. apply flat_map_app. Qed.

Lemma execs_app (tr tr' : list Event) :
  execs (tr ++ tr') = execs tr ++ execs tr'.
Proof. unfold execs. apply flat_map_app. Qed.

Lemma trace_bind {A B : Type} (m : Task A) (k : A -> Task B) :
  trace (bind m k) =
  trace m ++ match snd m with
             | Next a => trace (k a)
             | _ => []
             end.
Proof.
  destruct m as [tr [a | | reason]]; simpl.
  - destruct (k a) as [tr' f]. reflexivity.
  - now rewrite app_nil_r.
  - now rewrite app_nil_r.
Qed.

End Traces.

(** ** Matching *)

Section Matching.

Context `{regexp.Engine}.

Lemma firstMatch_step (rule : telecmd.Rule) (rest : list telecmd.Rule)
  (text : string) :
  telecmd.firstMatch (rule :: rest) text =
  if matchesText text (telecmd.Pattern rule) then (rule, true)
  else telecmd.firstMatch rest text.
Proof.
  unfold matchesText. simpl.
  destruct (regexp.MatchString (telecmd.Pattern rule) text) as [ok e].
  reflexivity.
Qed.

(** ruleFromMessage returns the first rule in configuration order whose
    pattern matches the text, whatever follows it in the list. *)
Lemma ruleFromMessage_first (t : telecmd.Telecmd)
  (message : tgbotapi.Message) (pre post : list telecmd.Rule)
  (rule : telecmd.Rule) :
  telecmd.Rules (telecmd.config t) = pre ++ rule :: post ->
  (forall q, In q pre ->
     matchesText (tgbotapi.Text message) (telecmd.Pattern q) = false) ->
  matchesText (tgbotapi.Text message) (telecmd.Pattern rule) = true ->
  telecmd.ruleFromMessage t message = (rule, true).
Proof.
  unfold telecmd.ruleFromMessage. intros -> Hpre Hrule.
  induction pre as [| q pre IH]; simpl app; rewrite firstMatch_step.
  - now rewrite Hrule.
  - rewrite (Hpre q) by now left.
    apply IH. intros q' Hq'. apply Hpre. now right.
Qed.

(** With no matching rule it returns the zero Rule and false. *)
Lemma ruleFromMessage_none (t : telecmd.Telecmd)
  (message : tgbotapi.Message) :
  (forall q, In q (telecmd.Rules (telecmd.config t)) ->
     matchesText (tgbotapi.Text message) (telecmd.Pattern q) = false) ->
  telecmd.ruleFromMessage t message = (telecmd.zeroRule, false).
Proof.
  unfold telecmd.ruleFromMessage.
  induction (telecmd.Rules (telecmd.config t)) as [| q rules IH];
    intros Hnone.
  - reflexivity.
  - rewrite firstMatch_step, (Hnone q) by now left.
    apply IH. intros q' Hq'. apply Hnone. now right.
Qed.

Lemma last_cons_default {A : Type} (l : list A) (a d : A) :
  last (a :: l) d = last l a.
Proof.
  revert a d. induction l as [| b l IH]; intros a d.
  - reflexivity.
  - change (last (a :: b :: l) d) with (last (b :: l) d).
    now rewrite (IH b d), (IH b a).
Qed.

(** The loop of the single-file main keeps going after a match, and what
    it keeps is the address of the loop variable. *)
Lemma legacy_loop_vars (text : string) (rules : list legacy.Rule)
  (vars : legacy.loopVars) :
  let vars' := fold_left (legacy.loopBody text) rules vars in
  legacy.rule vars' = last rules (legacy.rule vars)
  /\ legacy.matchedRule vars' =
     if existsb (fun r => matchesText text (legacy.Pattern r)) rules
     then Some legacy.AddrOfRule
     else legacy.matchedRule vars.
Proof.
  revert vars. induction rules as [| r rules IH]; intros vars.
  - now split.
  - destruct (IH (legacy.loopBody text vars r)) as [Hrule Hptr].
    cbn [fold_left existsb]. rewrite Hrule, Hptr, last_cons_default.
    unfold legacy.loopBody, matchesText. simpl.
    destruct (regexp.MatchString (legacy.Pattern r) text) as [[|] e];
      simpl; (split; [reflexivity |]).
    + now destruct (existsb _ rules).
    + reflexivity.
Qed.

(** So main runs the last rule of the list as soon as any rule matches. *)
Lemma legacy_matchRule_last (c : legacy.Config) (text : string) :
  legacy.matchRule c text =
  if existsb (fun r => matchesText text (legacy.Pattern r)) (legacy.Rules c)
  then Some (last (legacy.Rules c) legacy.zeroRule)
  else None.
Proof.
  unfold legacy.matchRule.
  destruct (legacy_loop_vars text (legacy.Rules c)
              {| legacy.rule := legacy.zeroRule;
                 legacy.matchedRule := None |}) as [Hrule Hptr].
  simpl in Hrule, Hptr. rewrite Hptr, Hrule.
  now destruct (existsb _ (legacy.Rules c)).
Qed.

End Matching.

Lemma prefix_append (p rest : string) :
  String.prefix p (p ++ rest)%string = true.
Proof.
  induction p as [| a p IH]; cbn.
  - now destruct rest.
  - destruct (ascii_dec a a) as [_ | n]; [exact IH | now elim n].
Qed.

Lemma Contains_prefix (s sub : string) :
  String.prefix sub s = true -> strings.Contains s sub = true.
Proof. intros Hpre. destruct s; cbn [strings.Contains]; now rewrite Hpre. Qed.

(** On the literal engine a pattern matches wherever it occurs in the
    text: the search is not anchored. *)
Lemma literal_match_unanchored (pattern before after : string) :
  regexp.isLiteral pattern = true ->
  @regexp.MatchString regexp.literalEngine pattern
    (before ++ pattern ++ after)%string = (true, None).
Proof.
  intros Hlit. unfold regexp.MatchString. cbn. rewrite Hlit. f_equal.
  induction before as [| c before IH]; cbn [String.append strings.Contains].
  - apply Contains_prefix, prefix_append.
  - rewrite IH. apply orb_true_r.
Qed.

(** ruleFromMessage passes over a rule that does not match and stops at
    the first that does, though a later one matches too. *)
Example ruleFromMessage_first_of_two :
  @telecmd.ruleFromMessage regexp.literalEngine
    (telecmd.New (sample.config
                    [sample.grepRule; sample.first; sample.second]))
    (sample.message "please status and deploy") = (sample.first, true).
Proof.
  apply (@ruleFromMessage_first regexp.literalEngine _ _
           [sample.grepRule] [sample.second] sample.first).
  - reflexivity.
  - intros q [<- | []]. reflexivity.
  - reflexivity.
Qed.

(** C1: the matcher returns the first rule in configuration order whose
    pattern matches the text.  The single-file main does not: with the two
    rules "first" and "second", both matching the text "deploy now", its
    loop ends on "second", where ruleFromMessage on the same rules and
    text returns "first"; and with a second rule that does not match at
    all, main still runs that second rule. *)
Theorem legacy_main_runs_last_rule :
  @legacy.matchRule regexp.literalEngine
    (sample.legacyConfig [sample.legacyFirst; sample.legacySecond])
    "deploy now" = Some sample.legacySecond
  /\ @telecmd.ruleFromMessage regexp.literalEngine
       (telecmd.New (sample.config [sample.first; sample.second]))
       (sample.message "deploy now") = (sample.first, true)
  /\ @legacy.matchRule regexp.literalEngine
       (sample.legacyConfig [sample.legacyFirst; sample.legacyOther])
       "deploy now" = Some sample.legacyOther.
Proof.
  split; [| split].
  - now rewrite legacy_matchRule_last.
  - reflexivity.
  - now rewrite legacy_matchRule_last.
Qed.

(** ** Validation *)

Section Validation.

Context `{regexp.Engine}.

(** C10: Config.Validate rejects a configuration whose rule list is
    empty, in both versions of the program, although the loop over the
    rules finds nothing to reject and every rule of the list passes
    Rule.Validate. *)
Theorem Validate_rejects_empty_rule_list :
  (forall c : telecmd.Config,
     List.length (telecmd.Rules c) = 0%nat ->
     telecmd.Config_Validate c = Some "rule list cannot be empty"%string
     /\ telecmd.validateRules 0 (telecmd.Rules c) = None
     /\ Forall (fun r => telecmd.Rule_Validate r = None) (telecmd.Rules c))
  /\ (forall c : legacy.Config,
        List.length (legacy.Rules c) = 0%nat ->
        legacy.Config_Validate c = Some "rule list cannot be empty"%string
        /\ legacy.validateRules 0 (legacy.Rules c) = None
        /\ Forall (fun r => legacy.Rule_Validate r = None) (legacy.Rules c)).
Proof.
  split; intros c Hlen.
  - unfold telecmd.Config_Validate. rewrite Hlen.
    destruct (telecmd.Rules c); [| discriminate].
    repeat split. constructor.
  - unfold legacy.Config_Validate. rewrite Hlen.
    destruct (legacy.Rules c); [| discriminate].
    repeat split. constructor.
Qed.

(** A configuration with rules is accepted exactly when each rule is. *)
Lemma validateRules_accepts (rules : list telecmd.Rule) (i : nat) :
  telecmd.validateRules i rules = None
  <-> Forall (fun r => telecmd.Rule_Validate r = None) rules.
Proof.
  revert i. induction rules as [| r rules IH]; intros i; simpl.
  - split; [constructor | reflexivity].
  - destruct (telecmd.Rule_Validate r) as [err |] eqn:Hr.
    + split; [discriminate |]. intros Hall. inversion Hall; subst.
      congruence.
    + rewrite IH. split.
      * now constructor.
      * intros Hall. now inversion Hall.
Qed.

(** A rule that passes Rule.Validate has a command. *)
Lemma Rule_Validate_command (r : telecmd.Rule) :
  telecmd.Rule_Validate r = None -> telecmd.Command r <> [].
Proof.
  unfold telecmd.Rule_Validate.
  destruct (regexp.Compile (telecmd.Pattern r)); [| discriminate].
  destruct (telecmd.Command r); [discriminate | discriminate].
Qed.

(** What ruleFromMessage returns with true is a rule of the list. *)
Lemma firstMatch_In (rules : list telecmd.Rule) (text : string)
  (rule : telecmd.Rule) :
  telecmd.firstMatch rules text = (rule, true) -> In rule rules.
Proof.
  induction rules as [| q rules IH]; [discriminate |].
  rewrite firstMatch_step.
  destruct (matchesText text (telecmd.Pattern q)).
  - intros [= <-]. now left.
  - intros Hrest. right. now apply IH.
Qed.

(** Under a configuration that passed Config.Validate, the rule matched
    for a message has a command: the builder is never asked to index an
    empty one. *)
Lemma validated_match_has_command (t : telecmd.Telecmd)
  (message : tgbotapi.Message) (rule : telecmd.Rule) :
  telecmd.Config_Validate (telecmd.config t) = None ->
  telecmd.ruleFromMessage t message = (rule, true) ->
  telecmd.Command rule <> [].
Proof.
  unfold telecmd.Config_Validate, telecmd.ruleFromMessage.
  destruct (Nat.eqb _ 0); [discriminate |].
  intros Hvalid Hmatch. apply Rule_Validate_command.
  apply validateRules_accepts in Hvalid.
  rewrite Forall_forall in Hvalid. apply Hvalid.
  now apply (firstMatch_In _ (tgbotapi.Text message)).
Qed.

End Validation.

Lemma Validate_rejects_empty_rule_list_witness :
  @telecmd.Config_Validate regexp.literalEngine (sample.config [])
  = Some "rule list cannot be empty"%string
  /\ @legacy.Config_Validate regexp.literalEngine (sample.legacyConfig [])
     = Some "rule list cannot be empty"%string.
Proof.
  split.
  - apply (proj1 (@Validate_rejects_empty_rule_list regexp.literalEngine)
             (sample.config [])).
    reflexivity.
  - apply (proj2 (@Validate_rejects_empty_rule_list regexp.literalEngine)
             (sample.legacyConfig [])).
    reflexivity.
Defined.

(** ** Building the command *)

Section Builder.

Import telecmd.

Variable environ : list string.

Lemma last_two {A : Type} (l : list A) (a b d : A) :
  last (l ++ [a; b]) d = b.
Proof.
  change [a; b] with ([a] ++ [b]). rewrite app_assoc. apply last_last.
Qed.

(** With a command, commandFromMessage returns, and without an error. *)
Lemma commandFromMessage_returns (rule : Rule)
  (message : tgbotapi.Message) (exe : string) (fixed : list string) :
  Command rule = exe :: fixed ->
  commandFromMessage environ rule message =
  Returns
    ({| exec.Args :=
          exe :: (if UseStdin rule then fixed
                  else fixed ++ ["--"%string; tgbotapi.Text message]);
        exec.Env :=
          (environ ++ Environment rule)
          ++ envsFromUpdate (Some message);
        exec.Dir := WorkingDirectory rule;
        exec.Stdin :=
          if UseStdin rule then Some (tgbotapi.Text message) else None |},
     None).
Proof.
  intros Hcmd. unfold commandFromMessage. rewrite Hcmd.
  destruct (UseStdin rule); cbn;
    now destruct (WorkingDirectory rule).
Qed.

(** C4, as the code has it: for a rule with a command the builder returns
    an invocation and no error; and it returns no error for any rule and
    message at all, an empty command included. *)
Theorem commandFromMessage_never_fails (rule : Rule)
  (message : tgbotapi.Message) :
  (Command rule <> [] ->
   exists cmd, commandFromMessage environ rule message = Returns (cmd, None))
  /\ (forall cmd err,
        commandFromMessage environ rule message = Returns (cmd, err) ->
        err = None).
Proof.
  split.
  - intros Hcmd. destruct (Command rule) as [| exe fixed] eqn:E.
    + now elim Hcmd.
    + eexists. exact (commandFromMessage_returns rule message exe fixed E).
  - intros cmd err. unfold commandFromMessage.
    destruct (UseStdin rule); destruct (Command rule); cbn;
      intros Heq; inversion Heq; reflexivity.
Qed.

(** C5: for a rule with useStdin=false the arguments are the rule's fixed
    arguments, then the marker "--", then the message text, which is the
    last argument whatever bytes it holds; no standard input is set. *)
Theorem arguments_without_stdin (rule : Rule)
  (message : tgbotapi.Message) :
  UseStdin rule = false ->
  Command rule <> [] ->
  exists cmd,
    commandFromMessage environ rule message = Returns (cmd, None)
    /\ hd EmptyString (exec.Args cmd) = hd EmptyString (Command rule)
    /\ tl (exec.Args cmd)
       = tl (Command rule) ++ ["--"%string; tgbotapi.Text message]
    /\ last (exec.Args cmd) EmptyString = tgbotapi.Text message
    /\ exec.Stdin cmd = None.
Proof.
  intros Hstdin Hcmd. destruct (Command rule) as [| exe fixed] eqn:E.
  - now elim Hcmd.
  - eexists.
    split; [exact (commandFromMessage_returns rule message exe fixed E) |].
    rewrite Hstdin. cbn [exec.Args exec.Stdin hd tl].
    repeat split.
    change (exe :: fixed ++ ["--"%string; tgbotapi.Text message])
      with ((exe :: fixed) ++ ["--"%string; tgbotapi.Text message]).
    apply last_two.
Qed.

(** C6: for a rule with useStdin=true the message text is the standard
    input of the built invocation, byte for byte, and no argument is
    appended: the arguments are the rule's command as configured.  The
    text is handed over by no argument: the arguments are the same
    whatever the message is. *)
Theorem arguments_with_stdin (rule : Rule) (message : tgbotapi.Message) :
  UseStdin rule = true ->
  Command rule <> [] ->
  exists cmd,
    commandFromMessage environ rule message = Returns (cmd, None)
    /\ exec.Stdin cmd = Some (tgbotapi.Text message)
    /\ exec.Args cmd = Command rule
    /\ forall other : tgbotapi.Message,
         exists cmd',
           commandFromMessage environ rule other = Returns (cmd', None)
           /\ exec.Args cmd' = exec.Args cmd.
Proof.
  intros Hstdin Hcmd. destruct (Command rule) as [| exe fixed] eqn:E.
  - now elim Hcmd.
  - eexists.
    split; [exact (commandFromMessage_returns rule message exe fixed E) |].
    rewrite Hstdin. cbn [exec.Args exec.Stdin].
    repeat split.
    intros other. eexists.
    split; [exact (commandFromMessage_returns rule other exe fixed E) |].
    now rewrite Hstdin.
Qed.

Lemma Getenv_app (env env' : list string) (key : string) :
  exec.Getenv (env ++ env') key =
  match exec.Getenv env' key with
  | Some v => Some v
  | None => exec.Getenv env key
  end.
Proof.
  induction env as [| kv env IH]; simpl.
  - now destruct (exec.Getenv env' key).
  - rewrite IH. now destruct (exec.Getenv env' key).
Qed.

(** C7: the environment of the built command is the inherited
    environment, then the rule's entries, then the entries made from the
    message: the chat id, the sender id and, for a reply only, the id and
    the text of the message replied to.  A started process sees, for each
    key, the entry of the last layer that defines it. *)
Theorem environment_layers (rule : Rule) (message : tgbotapi.Message)
  (chat : tgbotapi.Chat) (from : tgbotapi.User) :
  Command rule <> [] ->
  tgbotapi.Chat_ message = Some chat ->
  tgbotapi.From message = Some from ->
  let derived :=
    [("TELEGRAM_CHAT_ID=" ++ fmt.d (tgbotapi.Chat_ID chat))%string;
     ("TELEGRAM_FROM_USER_ID=" ++ fmt.d (tgbotapi.User_ID from))%string]
    ++ match tgbotapi.ReplyToMessage message with
       | Some replied =>
           [("TELEGRAM_REPLY_TO_MESSAGE_ID="
             ++ fmt.d (tgbotapi.MessageID replied))%string;
            ("TELEGRAM_REPLY_TO_MESSAGE_TEXT="
             ++ tgbotapi.Text replied)%string]
       | None => []
       end in
  exists cmd,
    commandFromMessage environ rule message = Returns (cmd, None)
    /\ exec.Env cmd = environ ++ Environment rule ++ derived
    /\ forall key,
         exec.Getenv (exec.Env cmd) key =
         match exec.Getenv derived key with
         | Some v => Some v
         | None =>
             match exec.Getenv (Environment rule) key with
             | Some v => Some v
             | None => exec.Getenv environ key
             end
         end.
Proof.
  intros Hcmd Hchat Hfrom derived.
  destruct (Command rule) as [| exe fixed] eqn:E; [now elim Hcmd |].
  assert (Henv : envsFromUpdate (Some message) = derived).
  { unfold envsFromUpdate, derived. rewrite Hchat, Hfrom.
    now destruct (tgbotapi.ReplyToMessage message). }
  eexists.
    split; [exact (commandFromMessage_returns rule message exe fixed E) |].
  cbn [exec.Env]. rewrite Henv, <- app_assoc. split; [reflexivity |].
  intros key. rewrite !Getenv_app.
  destruct (exec.Getenv derived key); [reflexivity |].
  now destruct (exec.Getenv (Environment rule) key).
Qed.

End Builder.

Lemma commandFromMessage_never_fails_witness :
  exists cmd,
    telecmd.commandFromMessage ["PATH=/usr/bin"%string] sample.echoRule
      (sample.message "deploy now") = Returns (cmd, None).
Proof.
  apply (proj1 (commandFromMessage_never_fails ["PATH=/usr/bin"%string]
                  sample.echoRule (sample.message "deploy now"))).
  discriminate.
Defined.

(** C4 as the specification states it fails: for a rule with an empty
    command and useStdin=false the builder reports no error; it returns an
    invocation whose command name is the marker "--". *)
Lemma empty_command_is_built :
  telecmd.Command sample.emptyRule = []
  /\ telecmd.commandFromMessage ["PATH=/usr/bin"%string] sample.emptyRule
       (sample.message "deploy now")
     = Returns
         ({| exec.Args := ["--"%string; "deploy now"%string];
             exec.Env := ["PATH=/usr/bin"%string;
                          "TELEGRAM_CHAT_ID=-1001"%string;
                          "TELEGRAM_FROM_USER_ID=42"%string];
             exec.Dir := EmptyString;
             exec.Stdin := None |}, None).
Proof. split; reflexivity. Qed.

(** With an empty command and useStdin=true the builder reads args[0] of
    an empty slice. *)
Example empty_command_with_stdin_panics :
  telecmd.commandFromMessage [] 
    {| telecmd.Name := "empty"; telecmd.Pattern := "deploy";
       telecmd.WorkingDirectory := EmptyString; telecmd.UseStdin := true;
       telecmd.Environment := []; telecmd.Command := [] |}
    (sample.message "deploy now")
  = Panics "index out of range [0] with length 0".
Proof. reflexivity. Qed.

Lemma arguments_without_stdin_witness :
  exists cmd,
    telecmd.commandFromMessage ["PATH=/usr/bin"%string] sample.echoRule
      (sample.message "--force; rm -rf $HOME") = Returns (cmd, None)
    /\ hd EmptyString (exec.Args cmd) = "echo"%string
    /\ tl (exec.Args cmd)
       = ["-n"%string; "--"%string; "--force; rm -rf $HOME"%string]
    /\ last (exec.Args cmd) EmptyString = "--force; rm -rf $HOME"%string
    /\ exec.Stdin cmd = None.
Proof.
  apply (arguments_without_stdin ["PATH=/usr/bin"%string] sample.echoRule
           (sample.message "--force; rm -rf $HOME")).
  - reflexivity.
  - discriminate.
Defined.

Lemma arguments_with_stdin_witness :
  exists cmd,
    telecmd.commandFromMessage [] sample.catRule
      (sample.message "deploy now") = Returns (cmd, None)
    /\ exec.Stdin cmd = Some "deploy now"%string
    /\ exec.Args cmd = ["cat"%string]
    /\ forall other : tgbotapi.Message,
         exists cmd',
           telecmd.commandFromMessage [] sample.catRule other
           = Returns (cmd', None)
           /\ exec.Args cmd' = exec.Args cmd.
Proof.
  apply (arguments_with_stdin [] sample.catRule
           (sample.message "deploy now")).
  - reflexivity.
  - discriminate.
Defined.

(** The builder does not read the rule's own arguments: a rule whose
    fixed argument is the text "hi" keeps it, whatever the message. *)
Example fixed_arguments_are_kept :
  telecmd.commandFromMessage [] sample.grepRule (sample.message "hi")
  = Returns
      ({| exec.Args := ["grep"%string; "hi"%string];
          exec.Env := ["TELEGRAM_CHAT_ID=-1001"%string;
                       "TELEGRAM_FROM_USER_ID=42"%string];
          exec.Dir := EmptyString;
          exec.Stdin := Some "hi"%string |}, None).
Proof. reflexivity. Qed.

Lemma environment_layers_witness :
  exists cmd,
    telecmd.commandFromMessage (os_Environ (sample.world
                                              (exec.StartFailed "")))
      sample.echoRule (sample.replyTo "deploy now") = Returns (cmd, None)
    /\ exec.Env cmd
       = ["PATH=/usr/bin"%string; "STAGE=dev"%string; "STAGE=prod"%string;
          "TELEGRAM_CHAT_ID=-1001"%string;
          "TELEGRAM_FROM_USER_ID=42"%string;
          "TELEGRAM_REPLY_TO_MESSAGE_ID=7"%string;
          "TELEGRAM_REPLY_TO_MESSAGE_TEXT=earlier"%string]
    /\ exec.Getenv (exec.Env cmd) "STAGE" = Some "prod"%string.
Proof.
  destruct (environment_layers
              (os_Environ (sample.world (exec.StartFailed "")))
              sample.echoRule (sample.replyTo "deploy now")
              sample.chat sample.user)
    as [cmd [Hcmd [Henv Hget]]].
  - discriminate.
  - reflexivity.
  - reflexivity.
  - exists cmd. split; [exact Hcmd |]. split; [exact Henv |].
    rewrite Hget. reflexivity.
Defined.

(** ** Reading the output *)

Section Interpreter.

Import telecmd.












(** *** Which member of an object is stored *)








(** *** Objects whose members are plain strings *)











(** C9: an output whose trimmed form begins with "{" and which does not
    decode gives no message and the error "unknown output format"; the
    handler logs it and returns without a send and without a panic.  So
    it is for the output [{not valid json]. *)
Theorem chattableFromStdout_unknown_format :
  (forall chatID output message e,
     strings.HasPrefix (strings.TrimSpace output) "{" = true ->
     json.Unmarshal output = (message, Some e) ->
     chattableFromStdout chatID output
     = (None, Some "unknown output format"%string))
  /\ (forall w request chat output message e,
        tgbotapi.Chat_ request = Some chat ->
        strings.HasPrefix (strings.TrimSpace output) "{" = true ->
        json.Unmarshal output = (message, Some e) ->
        reply w request output
        = ([Log LError "cannot parse stdout"], Return))
  /\ json.Unmarshal "{not valid json" = (EmptyString, Some json.SyntaxError)
  /\ (forall chatID,
        chattableFromStdout chatID "{not valid json"
        = (None, Some "unknown output format"%string)).
Proof.
  assert (Herr : forall chatID output message e,
    strings.HasPrefix (strings.TrimSpace output) "{" = true ->
    json.Unmarshal output = (message, Some e) ->
    chattableFromStdout chatID output
    = (None, Some "unknown output format"%string)).
  { intros chatID output message e Hpre Hjson. unfold chattableFromStdout.
    now rewrite Hpre, Hjson. }
  split; [exact Herr | split; [| split]].
  - intros w request chat output message e Hchat Hpre Hjson.
    unfold reply. destruct (String.eqb_spec output EmptyString) as [-> | _].
    + discriminate Hpre.
    + now rewrite Hchat, (Herr _ output message e).
  - reflexivity.
  - intros chatID. now apply (Herr chatID _ EmptyString json.SyntaxError).
Qed.

End Interpreter.


(** A member named message that holds a number is a type error of the
    decoder, whatever the other members hold; a key with the long s
    (U+017F) for an s names the field as well. *)
Example member_of_another_type :
  json.Unmarshal sample.numberObject
  = ("hi"%string, Some json.UnmarshalTypeError)
  /\ telecmd.chattableFromStdout 5 sample.numberObject
     = (None, Some "unknown output format"%string)
  /\ json.fieldMatches [109; 101; 197; 191; 197; 191; 97; 103; 101] = true.
Proof. repeat split. Qed.

Lemma chattableFromStdout_unknown_format_witness :
  telecmd.chattableFromStdout 5 (sample.messageObject "a" ++ "}")%string
  = (None, Some "unknown output format"%string).
Proof.
  apply (proj1 chattableFromStdout_unknown_format 5%Z
           (sample.messageObject "a" ++ "}")%string
           EmptyString json.SyntaxError).
  - reflexivity.
  - reflexivity.
Defined.

(** ** The handler *)

Section Pipeline.

Import telecmd.

Context `{regexp.Engine}.

(** Up to the test of [output] the handler sends nothing and starts at
    most one command; when it goes on, it has started exactly one, and
    [output] is that command's output text. *)
Lemma commandOutput_runs_once (t : Telecmd) (w : World)
  (update : tgbotapi.Update) :
  sends (trace (commandOutput t w update)) = []
  /\ match snd (commandOutput t w update) with
     | Next (message, output) =>
         exists cmd,
           execs (trace (commandOutput t w update)) = [cmd]
           /\ output
              = outputText (runCommand (ctx_Err w cmd)
                              (exec.Output (cmd_Run w cmd)))
     | _ => execs (trace (commandOutput t w update)) = []
     end.
Proof.
  unfold commandOutput.
  destruct (tgbotapi.Update_Message update) as [message |];
    [| now split].
  destruct (tgbotapi.From message) as [from |]; [| now split].
  destruct (ruleFromMessage t message) as [rule [|]]; [| now split].
  destruct (commandFromMessage (os_Environ w) rule message)
    as [[cmd [err |]] | reason]; [now split | | now split].
  cbn.
  destruct (runCommand (ctx_Err w cmd) (exec.Output (cmd_Run w cmd)))
    as [out [e |]] eqn:E; cbn;
    (split; [reflexivity | exists cmd; now rewrite E]).
Qed.

(** After the test of [output] no command is started. *)
Lemma reply_execs (w : World) (message : tgbotapi.Message)
  (output : string) :
  execs (trace (reply w message output)) = [].
Proof.
  unfold reply. destruct (String.eqb output EmptyString); [reflexivity |].
  destruct (tgbotapi.Chat_ message) as [chat |]; [| reflexivity].
  destruct (chattableFromStdout (tgbotapi.Chat_ID chat) output)
    as [[m |] [err |]]; try reflexivity.
  cbn. now destruct (bot_Send w _).
Qed.

Lemma handleUpdate_trace (t : Telecmd) (w : World)
  (update : tgbotapi.Update) :
  trace (handleUpdate t w update)
  = trace (commandOutput t w update)
    ++ match snd (commandOutput t w update) with
       | Next r => trace (reply w (fst r) (snd r))
       | _ => []
       end.
Proof. unfold handleUpdate. apply trace_bind. Qed.

Lemma handleUpdate_execs (t : Telecmd) (w : World)
  (update : tgbotapi.Update) :
  execs (trace (handleUpdate t w update))
  = execs (trace (commandOutput t w update)).
Proof.
  rewrite handleUpdate_trace, execs_app.
  destruct (snd (commandOutput t w update)) as [r | |];
    [rewrite reply_execs |..]; apply app_nil_r.
Qed.

(** A run whose command gave the empty output text ends by the return
    after the test, with nothing sent. *)
Lemma empty_output_returns (t : Telecmd) (w : World)
  (update : tgbotapi.Update) (cmd : exec.Cmd) :
  In cmd (execs (trace (handleUpdate t w update))) ->
  outputText (runCommand (ctx_Err w cmd) (exec.Output (cmd_Run w cmd)))
  = EmptyString ->
  sends (trace (handleUpdate t w update)) = []
  /\ snd (handleUpdate t w update) = Return.
Proof.
  rewrite handleUpdate_execs, handleUpdate_trace, sends_app.
  destruct (commandOutput_runs_once t w update) as [Hsends Hexecs].
  rewrite Hsends. unfold handleUpdate.
  destruct (commandOutput t w update) as [tr [[message output] | |]];
    cbn [snd fst trace] in *.
  - destruct Hexecs as [cmd' [Hone ->]]. rewrite Hone.
    intros [-> | []] Hempty. rewrite Hempty. now split.
  - rewrite Hexecs. intros [].
  - rewrite Hexecs. intros [].
Qed.

(** C2, as the code has it: when the output text of the command the
    handler ran (its standard output, or the text of the runner's error)
    is empty, the handler sends no reply; empty standard output of a
    successful command is such a case. *)
Theorem empty_output_sends_nothing (t : Telecmd) (w : World)
  (update : tgbotapi.Update) :
  (forall cmd,
     In cmd (execs (trace (handleUpdate t w update))) ->
     outputText (runCommand (ctx_Err w cmd) (exec.Output (cmd_Run w cmd)))
     = EmptyString) ->
  sends (trace (handleUpdate t w update)) = []
  /\ forall ctxErr stderr,
       outputText (runCommand ctxErr
                     (exec.Output (exec.Exited 0 EmptyString stderr)))
       = EmptyString.
Proof.
  intros Hempty. split; [| reflexivity].
  destruct (execs (trace (handleUpdate t w update))) as [| cmd cmds] eqn:E.
  - rewrite handleUpdate_execs in E.
    rewrite handleUpdate_trace, sends_app.
    destruct (commandOutput_runs_once t w update) as [Hsends Hexecs].
    rewrite Hsends.
    destruct (snd (commandOutput t w update)) as [[message output] | |];
      try reflexivity.
    destruct Hexecs as [cmd [Hone _]]. rewrite Hone in E. discriminate.
  - apply (empty_output_returns t w update cmd).
    + rewrite E. now left.
    + apply Hempty. now left.
Qed.

(** C3: the runner of Run surfaces no launch error.  When the command
    does not start and its deadline has not passed, runCommand returns
    the empty output and a nil error, which is its result for a command
    that succeeds and prints nothing; the handler logs nothing after the
    start of the command, and returns without a reply. *)
Theorem launch_failure_is_swallowed (t : Telecmd) (w : World)
  (update : tgbotapi.Update) (cmd : exec.Cmd) (msg : string) :
  In cmd (execs (trace (handleUpdate t w update))) ->
  cmd_Run w cmd = exec.StartFailed msg ->
  ctx_Err w cmd <> Some context.DeadlineExceeded ->
  runCommand (ctx_Err w cmd) (exec.Output (cmd_Run w cmd))
  = (EmptyString, None)
  /\ runCommand (ctx_Err w cmd) (exec.Output (cmd_Run w cmd))
     = runCommand (ctx_Err w cmd)
         (exec.Output (exec.Exited 0 EmptyString EmptyString))
  /\ trace (handleUpdate t w update)
     = [Log LInfo "got message"; Log LDebug "matched rule";
        Log LDebug "running command"; Exec cmd]
  /\ snd (handleUpdate t w update) = Return.
Proof.
  intros Hin Hfail Hctx.
  assert (Hrun : runCommand (ctx_Err w cmd) (exec.Output (cmd_Run w cmd))
                 = (EmptyString, None)).
  { rewrite Hfail.
    destruct (ctx_Err w cmd) as [[|] |]; [now elim Hctx | reflexivity..]. }
  split; [exact Hrun |]. split; [now rewrite Hrun |].
  rewrite handleUpdate_execs in Hin. revert Hin.
  unfold handleUpdate, commandOutput.
  destruct (tgbotapi.Update_Message update) as [message |];
    [| cbn; intros []].
  destruct (tgbotapi.From message) as [from |]; [| cbn; intros []].
  destruct (ruleFromMessage t message) as [rule [|]]; [| cbn; intros []].
  destruct (commandFromMessage (os_Environ w) rule message)
    as [[cmd0 [err |]] | reason]; [cbn; intros [] | | cbn; intros []].
  cbn.
  destruct (runCommand (ctx_Err w cmd0) (exec.Output (cmd_Run w cmd0)))
    as [out [e |]] eqn:E; cbn; intros [-> | []];
    rewrite Hrun in E; inversion E; subst out.
  now split.
Qed.

End Pipeline.

(** C2 as the specification states it fails: the command prints [{}],
    the reply body decoded from it is empty, and the handler sends it. *)
Lemma blank_reply_is_sent :
  body (telecmd.chattableFromStdout (-1001) "{}") = Some EmptyString
  /\ sends (trace (@telecmd.handleUpdate regexp.literalEngine
                     (telecmd.New (sample.config [sample.echoRule]))
                     (sample.world (exec.Exited 0 "{}" EmptyString))
                     (sample.update "deploy now")))
     = [tgbotapi.OfMessageConfig (telecmd.textMessage (-1001) EmptyString)].
Proof. split; reflexivity. Qed.

Lemma empty_output_sends_nothing_witness :
  List.length
    (execs (trace (@telecmd.handleUpdate regexp.literalEngine
                     (telecmd.New (sample.config [sample.echoRule]))
                     (sample.world (exec.Exited 0 EmptyString EmptyString))
                     (sample.update "deploy now")))) = 1%nat
  /\ sends (trace (@telecmd.handleUpdate regexp.literalEngine
                     (telecmd.New (sample.config [sample.echoRule]))
                     (sample.world (exec.Exited 0 EmptyString EmptyString))
                     (sample.update "deploy now"))) = [].
Proof.
  split; [reflexivity |].
  apply (@empty_output_sends_nothing regexp.literalEngine
           (telecmd.New (sample.config [sample.echoRule]))
           (sample.world (exec.Exited 0 EmptyString EmptyString))
           (sample.update "deploy now")).
  intros cmd _. reflexivity.
Defined.

Lemma launch_failure_is_swallowed_witness :
  telecmd.runCommand None (exec.Output (exec.StartFailed "permission denied"))
  = (EmptyString, None)
  /\ telecmd.runCommand None
       (exec.Output (exec.StartFailed "permission denied"))
     = telecmd.runCommand None
         (exec.Output (exec.Exited 0 EmptyString EmptyString))
  /\ trace (@telecmd.handleUpdate regexp.literalEngine
              (telecmd.New (sample.config [sample.echoRule]))
              (sample.world (exec.StartFailed "permission denied"))
              (sample.update "deploy now"))
     = [Log LInfo "got message"; Log LDebug "matched rule";
        Log LDebug "running command"; Exec sample.echoCmd]
  /\ snd (@telecmd.handleUpdate regexp.literalEngine
            (telecmd.New (sample.config [sample.echoRule]))
            (sample.world (exec.StartFailed "permission denied"))
            (sample.update "deploy now")) = Return.
Proof.
  apply (@launch_failure_is_swallowed regexp.literalEngine
           (telecmd.New (sample.config [sample.echoRule]))
           (sample.world (exec.StartFailed "permission denied"))
           (sample.update "deploy now") sample.echoCmd
           "permission denied"%string).
  - left. reflexivity.
  - reflexivity.
  - discriminate.
Defined.

(** The caller's own test of the runner's error, which logs "command
    finished with error", is reached by a command that exits with a
    status other than 0, and not by one that does not start. *)
Example failed_exit_is_logged :
  trace (@telecmd.handleUpdate regexp.literalEngine
           (telecmd.New (sample.config [sample.echoRule]))
           (sample.world (exec.Exited 3 EmptyString "boom"))
           (sample.update "deploy now"))
  = [Log LInfo "got message"; Log LDebug "matched rule";
     Log LDebug "running command"; Exec sample.echoCmd;
     Log LDebug "command finished with error";
     Send (tgbotapi.OfMessageConfig
             (telecmd.textMessage (-1001)
                ("command exited with code=3"
                 ++ String "010" (String "010" "boom"))))].
Proof. reflexivity. Qed.

(** When the deadline has passed as well, the handler answers that the
    command took too long. *)
Example launch_failure_after_deadline :
  sends (trace (@telecmd.handleUpdate regexp.literalEngine
                  (telecmd.New (sample.config [sample.echoRule]))
                  (sample.lateWorld (exec.StartFailed "permission denied"))
                  (sample.update "deploy now")))
  = [tgbotapi.OfMessageConfig
       (telecmd.textMessage (-1001) "command took too long to finish")].
Proof. reflexivity. Qed.

(** A non-zero exit is answered with the code and the standard error. *)
Example exit_code_and_stderr :
  sends (trace (@telecmd.handleUpdate regexp.literalEngine
                  (telecmd.New (sample.config [sample.echoRule]))
                  (sample.world (exec.Exited 3 "partial" "boom"))
                  (sample.update "deploy now")))
  = [tgbotapi.OfMessageConfig
       (telecmd.textMessage (-1001)
          ("command exited with code=3"
           ++ String "010" (String "010" "boom")))].
Proof. reflexivity. Qed.

(** A message no rule matches starts no command and gets no reply. *)
Example no_match_no_command :
  @telecmd.handleUpdate regexp.literalEngine
    (telecmd.New (sample.config [sample.echoRule]))
    (sample.world (exec.Exited 0 "out" EmptyString))
    (sample.update "status")
  = ([Log LInfo "got message"; Log LDebug "no matching rule"], Return).
Proof. reflexivity. Qed.

(** ** Which outputs are taken for JSON *)

Section Classifier.

Lemma DecodeRune_ascii (b : N) (rest : list N) :
  (b <? 128) = true -> utf8.DecodeRune (b :: rest) = (b, 1%nat).
Proof.
  intros Hb. unfold utf8.DecodeRune, utf8.RuneSelf. now rewrite Hb.
Qed.

Lemma DecodeRune_wide (b : N) (rest : list N) (r : N) (size : nat) :
  utf8.DecodeRune (b :: rest) = (r, size) -> (2 <= size)%nat -> 128 <= b.
Proof.
  unfold utf8.DecodeRune, utf8.RuneSelf. destruct (b <? 128) eqn:E.
  - intros [= _ <-] Hsize. inversion Hsize as [| ? Hle]. inversion Hle.
  - intros _ _. now apply N.ltb_ge.
Qed.

(** A rune of several bytes found at the end of the input starts with a
    byte of the upper half. *)
Lemma DecodeLastRune_lead (rs : list N) (r : N) (size : nat) :
  utf8.DecodeLastRune rs = (r, size) ->
  (size <= 1)%nat
  \/ exists lead, nth_error rs (Nat.pred size) = Some lead /\ 128 <= lead.
Proof.
  assert (Htry : forall k lead tail r' size',
    (1 <= k)%nat ->
    (let '(r0, size0) := utf8.DecodeRune (lead :: tail) in
     if Nat.eqb size0 (S k) then (r0, size0) else (utf8.RuneError, 1%nat))
    = (r', size') ->
    (size' <= 1)%nat \/ (size' = S k /\ 128 <= lead)).
  { intros k lead tail r' size' Hk.
    destruct (utf8.DecodeRune (lead :: tail)) as [r0 size0] eqn:E.
    destruct (Nat.eqb_spec size0 (S k)) as [-> | _].
    - intros [= _ <-]. right. split; [reflexivity |].
      apply (DecodeRune_wide lead tail r0 (S k) E).
      now apply le_n_S.
    - intros [= _ <-]. left. constructor. }
  unfold utf8.DecodeLastRune. destruct rs as [| b before].
  { intros [= _ <-]. left. repeat constructor. }
  destruct (b <? utf8.RuneSelf).
  { intros [= _ <-]. left. constructor. }
  destruct before as [| p1 before1].
  { intros [= _ <-]. left. constructor. }
  destruct (utf8.RuneStart p1).
  { cbn [firstn rev app]. intros Hdec.
    destruct (Htry 1%nat p1 [b] r size (le_n 1) Hdec) as [Hle | [-> Hlead]];
      [now left | right]. exists p1. now split. }
  destruct before1 as [| p2 before2].
  { intros [= _ <-]. left. constructor. }
  destruct (utf8.RuneStart p2).
  { cbn [firstn rev app]. intros Hdec.
    destruct (Htry 2%nat p2 [p1; b] r size (le_S 1 1 (le_n 1)) Hdec)
      as [Hle | [-> Hlead]]; [now left | right]. exists p2. now split. }
  destruct before2 as [| p3 before3].
  { intros [= _ <-]. left. constructor. }
  destruct (utf8.RuneStart p3).
  { cbn [firstn rev app]. intros Hdec.
    assert (H13 : (1 <= 3)%nat) by (repeat constructor).
    destruct (Htry 3%nat p3 [p2; p1; b] r size H13 Hdec)
      as [Hle | [-> Hlead]]; [now left | right]. exists p3. now split. }
  intros [= _ <-]. left. constructor.
Qed.

Lemma IsSpace_ascii (c : ascii) :
  (byte_val c <? 128) = true ->
  unicode.IsSpace (byte_val c) = asciiSpace c.
Proof.
  intros Hb. apply N.ltb_lt in Hb. unfold unicode.IsSpace, asciiSpace.
  replace (byte_val c <=? 255) with true
    by (symmetry; apply N.leb_le; lia).
  replace (byte_val c =? 133) with false
    by (symmetry; apply N.eqb_neq; lia).
  replace (byte_val c =? 160) with false
    by (symmetry; apply N.eqb_neq; lia).
  now rewrite !orb_false_r.
Qed.

Lemma asciiSpace_ascii (c : ascii) :
  asciiSpace c = true -> (byte_val c <? 128) = true.
Proof.
  unfold asciiSpace. rewrite !orb_true_iff, !N.eqb_eq.
  intros Hc. apply N.ltb_lt. lia.
Qed.

(** Leading ASCII white space is dropped, and nothing after it. *)
Lemma trimLeft_skips (ws : string) (c : ascii) (rest : string) :
  forallb asciiSpace (list_ascii_of_string ws) = true ->
  (byte_val c <? 128) = true ->
  asciiSpace c = false ->
  strings.trimLeft unicode.IsSpace 0
    (bytes_of_string (ws ++ String c rest))
  = byte_val c :: bytes_of_string rest.
Proof.
  intros Hws Hc Hnot. induction ws as [| a ws IH].
  - change (bytes_of_string (EmptyString ++ String c rest))
      with (byte_val c :: bytes_of_string rest).
    cbn [strings.trimLeft]. rewrite (DecodeRune_ascii _ _ Hc).
    now rewrite (IsSpace_ascii c Hc), Hnot.
  - cbn [list_ascii_of_string forallb] in Hws.
    apply andb_prop in Hws. destruct Hws as [Ha Hws].
    change (bytes_of_string (String a ws ++ String c rest))
      with (byte_val a :: bytes_of_string (ws ++ String c rest)).
    cbn [strings.trimLeft].
    rewrite (DecodeRune_ascii _ _ (asciiSpace_ascii a Ha)).
    rewrite (IsSpace_ascii a (asciiSpace_ascii a Ha)), Ha.
    cbn [Nat.pred]. exact (IH Hws).
Qed.

(** Trimming on the right stops before an ASCII byte that is not white
    space, however the bytes after it decode. *)
Lemma trimRightRev_keeps (b : N) (l : list N) (skip : nat) :
  (b <? 128) = true ->
  unicode.IsSpace b = false ->
  (skip <= List.length l)%nat ->
  exists l', strings.trimRightRev unicode.IsSpace skip (l ++ [b]) = l' ++ [b].
Proof.
  intros Hb Hnot. revert skip.
  induction l as [| x l IH]; intros skip Hskip.
  - inversion Hskip; subst. exists []. cbn [app strings.trimRightRev].
    unfold utf8.DecodeLastRune, utf8.RuneSelf. now rewrite Hb, Hnot.
  - cbn [app strings.trimRightRev]. destruct skip as [| k].
    + destruct (utf8.DecodeLastRune (x :: l ++ [b])) as [r size] eqn:E.
      destruct (unicode.IsSpace r); [| now exists (x :: l)].
      apply IH.
      destruct (DecodeLastRune_lead _ _ _ E) as [Hle | [lead [Hnth Hlead]]].
      * destruct size as [| [| n]]; cbn [Nat.pred]; try apply Nat.le_0_l.
        inversion Hle as [| ? Hle']. inversion Hle'.
      * destruct (Nat.le_gt_cases (Nat.pred size) (List.length l))
          as [Hok | Hbig]; [exact Hok | exfalso].
        destruct (Nat.pred size) as [| n]; [inversion Hbig |].
        cbn [nth_error] in Hnth.
        rewrite nth_error_app2 in Hnth by (now apply Nat.succ_le_mono).
        destruct (n - List.length l)%nat as [| m]; cbn in Hnth.
        -- injection Hnth as <-. apply N.ltb_lt in Hb. lia.
        -- now destruct m.
    + apply IH. now apply Nat.succ_le_mono.
Qed.

(** The trimmed output keeps the first byte after the white space. *)
Lemma TrimSpace_first_byte (ws : string) (c : ascii) (rest : string) :
  forallb asciiSpace (list_ascii_of_string ws) = true ->
  (byte_val c <? 128) = true ->
  asciiSpace c = false ->
  exists tail, strings.TrimSpace (ws ++ String c rest) = String c tail.
Proof.
  intros Hws Hc Hnot. unfold strings.TrimSpace, strings.TrimFunc.
  rewrite (trimLeft_skips ws c rest Hws Hc Hnot). cbn [rev].
  destruct (trimRightRev_keeps (byte_val c) (rev (bytes_of_string rest)) 0 Hc)
    as [l' Hl'].
  - now rewrite (IsSpace_ascii c Hc).
  - apply Nat.le_0_l.
  - rewrite Hl', rev_app_distr. cbn [rev app].
    exists (string_of_bytes (rev l')).
    unfold string_of_bytes. cbn [map string_of_list_ascii].
    unfold byte_of, byte_val. now rewrite ascii_N_embedding.
Qed.

Lemma structured_first_byte (ws : string) (c : ascii) (rest : string) :
  forallb asciiSpace (list_ascii_of_string ws) = true ->
  (byte_val c <? 128) = true ->
  asciiSpace c = false ->
  strings.HasPrefix (strings.TrimSpace (ws ++ String c rest)) "{"
  = Ascii.eqb c "{".
Proof.
  intros Hws Hc Hnot.
  destruct (TrimSpace_first_byte ws c rest Hws Hc Hnot) as [tail ->].
  unfold strings.HasPrefix. cbn [String.prefix].
  destruct (ascii_dec "{" c) as [<- | Hne].
  - now destruct tail.
  - symmetry. apply Ascii.eqb_neq. congruence.
Qed.

(** The first byte after leading ASCII white space decides how an output
    is read: after a brace the output is decoded as JSON, and the reply is
    the decoded message or nothing; after any other ASCII byte the reply
    is the output itself, its white space included. *)
Theorem first_byte_decides (chatID : Z) (ws : string) (c : ascii)
  (rest : string) :
  forallb asciiSpace (list_ascii_of_string ws) = true ->
  (byte_val c <? 128) = true ->
  asciiSpace c = false ->
  body (telecmd.chattableFromStdout chatID (ws ++ String c rest))
  = if Ascii.eqb c "{" then decoded (ws ++ String c rest)
    else Some (ws ++ String c rest)%string.
Proof.
  intros Hws Hc Hnot. unfold telecmd.chattableFromStdout.
  rewrite (structured_first_byte ws c rest Hws Hc Hnot).
  destruct (Ascii.eqb c "{"); [| reflexivity].
  unfold decoded. cbn [negb].
  now destruct (json.Unmarshal (ws ++ String c rest)) as [m [e |]].
Qed.

End Classifier.

Lemma first_byte_decides_witness :
  body (telecmd.chattableFromStdout 5
          (String "009" (String "010" " ") ++ String "{" "}"))
  = Some EmptyString
  /\ body (telecmd.chattableFromStdout 5
             (String "009" (String "010" " ") ++ String "o" "k {"))
     = Some (String "009" (String "010" " ") ++ String "o" "k {")%string.
Proof.
  split.
  - apply (first_byte_decides 5%Z (String "009" (String "010" " "))
             "{"%char "}"); reflexivity.
  - apply (first_byte_decides 5%Z (String "009" (String "010" " "))
             "o"%char "k {"); reflexivity.
Defined.

(** ** What the handler starts and sends *)

Section Runs.

Import telecmd.

Context `{regexp.Engine}.

(** When the handler reaches the test of [output], it has matched a rule
    of the update's message, built its command without error and run
    it. *)
Lemma commandOutput_next (t : Telecmd) (w : World)
  (update : tgbotapi.Update) (tr : list Event)
  (message : tgbotapi.Message) (output : string) :
  commandOutput t w update = (tr, Next (message, output)) ->
  tgbotapi.Update_Message update = Some message
  /\ tgbotapi.From message <> None
  /\ exists rule cmd,
       ruleFromMessage t message = (rule, true)
       /\ commandFromMessage (os_Environ w) rule message
          = Returns (cmd, None)
       /\ execs tr = [cmd]
       /\ output
          = outputText (runCommand (ctx_Err w cmd)
                          (exec.Output (cmd_Run w cmd))).
Proof.
  unfold commandOutput.
  destruct (tgbotapi.Update_Message update) as [m |]; [| discriminate].
  destruct (tgbotapi.From m) as [from |] eqn:Hfrom; [| discriminate].
  destruct (ruleFromMessage t m) as [rule [|]] eqn:Hrule; [| discriminate].
  destruct (commandFromMessage (os_Environ w) rule m)
    as [[cmd [err |]] | reason] eqn:Hcmd; [discriminate | | discriminate].
  cbn.
  destruct (runCommand (ctx_Err w cmd) (exec.Output (cmd_Run w cmd)))
    as [out [e |]] eqn:Hrun; cbn; intros [= <- <- <-];
    (split; [reflexivity |]); (split; [rewrite Hfrom; discriminate |]);
    exists rule, cmd; now rewrite Hrun.
Qed.

(** What the second half of the handler sends, for a message with a
    chat. *)
Lemma reply_sends (w : World) (message : tgbotapi.Message)
  (chat : tgbotapi.Chat) (output : string) :
  tgbotapi.Chat_ message = Some chat ->
  sends (trace (reply w message output))
  = if String.eqb output EmptyString then []
    else match body (chattableFromStdout (tgbotapi.Chat_ID chat) output) with
         | Some text =>
             [tgbotapi.OfMessageConfig
                (textMessage (tgbotapi.Chat_ID chat) text)]
         | None => []
         end.
Proof.
  intros Hchat. unfold reply, chattableFromStdout. rewrite Hchat.
  destruct (String.eqb output EmptyString); [reflexivity |].
  destruct (negb (strings.HasPrefix (strings.TrimSpace output) "{")).
  - cbn. now destruct (bot_Send w _).
  - destruct (json.Unmarshal output) as [m [e |]]; [reflexivity |].
    cbn. now destruct (bot_Send w _).
Qed.

Lemma reply_sends_any (w : World) (message : tgbotapi.Message)
  (output : string) (c : tgbotapi.Chattable) :
  In c (sends (trace (reply w message output))) ->
  exists chat text,
    tgbotapi.Chat_ message = Some chat
    /\ sends (trace (reply w message output)) = [c]
    /\ c = tgbotapi.OfMessageConfig
             (textMessage (tgbotapi.Chat_ID chat) text).
Proof.
  destruct (tgbotapi.Chat_ message) as [chat |] eqn:Hchat.
  - rewrite (reply_sends w message chat output Hchat).
    destruct (String.eqb output EmptyString); [intros [] |].
    destruct (body _) as [text |]; [| intros []].
    intros [<- | []]. now exists chat, text.
  - unfold reply. rewrite Hchat.
    now destruct (String.eqb output EmptyString).
Qed.

(** The replies of a run that has started [cmd] are those of the second
    half on that command's output text. *)
Lemma handleUpdate_sends (t : Telecmd) (w : World)
  (update : tgbotapi.Update) (message : tgbotapi.Message)
  (cmd : exec.Cmd) :
  tgbotapi.Update_Message update = Some message ->
  In cmd (execs (trace (handleUpdate t w update))) ->
  sends (trace (handleUpdate t w update))
  = sends (trace (reply w message
                    (outputText (runCommand (ctx_Err w cmd)
                                   (exec.Output (cmd_Run w cmd)))))).
Proof.
  intros Hmsg. rewrite handleUpdate_execs, handleUpdate_trace, sends_app.
  destruct (commandOutput_runs_once t w update) as [Hsends Hexecs].
  rewrite Hsends.
  destruct (commandOutput t w update) as [tr [[m o] | |]] eqn:E;
    cbn [snd fst trace] in *.
  - destruct (commandOutput_next t w update tr m o E)
      as [Hm [_ [rule [cmd' [_ [_ [Hone ->]]]]]]].
    rewrite Hone. intros [<- | []].
    rewrite Hm in Hmsg. injection Hmsg as ->. reflexivity.
  - rewrite Hexecs. intros [].
  - rewrite Hexecs. intros [].
Qed.

(** The handler starts a command only for a message that a rule matches,
    and the command is the one built from the first matching rule: a
    command in the trace comes from ruleFromMessage and
    commandFromMessage on the update's message. *)
Theorem started_command_is_matched_rule (t : Telecmd) (w : World)
  (update : tgbotapi.Update) (cmd : exec.Cmd) :
  In cmd (execs (trace (handleUpdate t w update))) ->
  exists message rule,
    tgbotapi.Update_Message update = Some message
    /\ ruleFromMessage t message = (rule, true)
    /\ commandFromMessage (os_Environ w) rule message = Returns (cmd, None).
Proof.
  rewrite handleUpdate_execs.
  destruct (commandOutput_runs_once t w update) as [_ Hexecs].
  destruct (commandOutput t w update) as [tr [[m o] | |]] eqn:E;
    cbn [snd fst trace] in *.
  - destruct (commandOutput_next t w update tr m o E)
      as [Hm [_ [rule [cmd' [Hrule [Hcmd [Hone _]]]]]]].
    rewrite Hone. intros [<- | []]. now exists m, rule.
  - rewrite Hexecs. intros [].
  - rewrite Hexecs. intros [].
Qed.

(** One update starts at most one command and sends at most one reply,
    and it sends a reply only after it has started a command. *)
Theorem one_command_one_reply (t : Telecmd) (w : World)
  (update : tgbotapi.Update) :
  (List.length (execs (trace (handleUpdate t w update))) <= 1)%nat
  /\ (List.length (sends (trace (handleUpdate t w update))) <= 1)%nat
  /\ (execs (trace (handleUpdate t w update)) = [] ->
      sends (trace (handleUpdate t w update)) = []).
Proof.
  rewrite handleUpdate_execs, handleUpdate_trace, sends_app.
  destruct (commandOutput_runs_once t w update) as [Hsends Hexecs].
  rewrite Hsends. cbn [app].
  destruct (snd (commandOutput t w update)) as [[m o] | |].
  - destruct Hexecs as [cmd [Hone _]]. rewrite Hone. cbn [fst snd].
    split; [constructor | split; [| discriminate]].
    destruct (sends (trace (reply w m o))) as [| c l] eqn:E;
      [repeat constructor |].
    destruct (reply_sends_any w m o c) as [_ [_ [_ [Hc _]]]].
    + rewrite E. now left.
    + rewrite E in Hc. rewrite Hc. constructor.
  - rewrite Hexecs. repeat split; repeat constructor.
  - rewrite Hexecs. repeat split; repeat constructor.
Qed.

(** Every reply the handler sends is a MessageConfig value addressed to
    the chat of the update's message, with the keyboard removal set and
    with ReplyToMessageID left at 0: the type switch, which would set it,
    names the pointer type and so does not apply. *)
Theorem replies_name_no_message (t : Telecmd) (w : World)
  (update : tgbotapi.Update) (c : tgbotapi.Chattable) :
  In c (sends (trace (handleUpdate t w update))) ->
  exists message chat m,
    tgbotapi.Update_Message update = Some message
    /\ tgbotapi.Chat_ message = Some chat
    /\ c = tgbotapi.OfMessageConfig m
    /\ tgbotapi.ChatID m = tgbotapi.Chat_ID chat
    /\ tgbotapi.ReplyToMessageID m = 0%Z
    /\ tgbotapi.ReplyMarkup m = Some (tgbotapi.NewRemoveKeyboard false).
Proof.
  rewrite handleUpdate_trace, sends_app.
  destruct (commandOutput_runs_once t w update) as [Hsends _].
  rewrite Hsends. cbn [app].
  destruct (commandOutput t w update) as [tr [[m o] | |]] eqn:E;
    cbn [snd fst]; [| intros [] | intros []].
  destruct (commandOutput_next t w update tr m o E) as [Hm _].
  intros Hin.
  destruct (reply_sends_any w m o c Hin) as [chat [text [Hchat [_ ->]]]].
  exists m, chat, (textMessage (tgbotapi.Chat_ID chat) text).
  repeat split; assumption.
Qed.

(** Under a configuration that passed Config.Validate, an update whose
    message has a sender and a chat never makes the handler panic,
    whatever becomes of the command and of the send. *)
Theorem validated_handler_never_panics (t : Telecmd) (w : World)
  (update : tgbotapi.Update) :
  Config_Validate (config t) = None ->
  (forall message,
     tgbotapi.Update_Message update = Some message ->
     tgbotapi.From message <> None /\ tgbotapi.Chat_ message <> None) ->
  forall reason, snd (handleUpdate t w update) <> Panic reason.
Proof.
  intros Hvalid Hmsg reason. unfold handleUpdate, commandOutput.
  destruct (tgbotapi.Update_Message update) as [m |]; [| discriminate].
  destruct (Hmsg m eq_refl) as [Hfrom Hchat].
  destruct (tgbotapi.From m) as [from |]; [| now elim Hfrom].
  destruct (ruleFromMessage t m) as [rule [|]] eqn:Hrule; [| discriminate].
  pose proof (validated_match_has_command t m rule Hvalid Hrule) as Hcmd.
  destruct (Command rule) as [| exe fixed] eqn:Hexe; [now elim Hcmd |].
  rewrite (commandFromMessage_returns (os_Environ w) rule m exe fixed Hexe).
  cbn.
  match goal with
  | |- context [runCommand ?a ?b] => destruct (runCommand a b) as [out [e |]]
  end; cbn; unfold reply;
    (destruct (tgbotapi.Chat_ m) as [chat |]; [| now elim Hchat]).
  - destruct (String.eqb e EmptyString); [discriminate |].
    unfold chattableFromStdout.
    destruct (negb _).
    + cbn. now destruct (bot_Send w _).
    + destruct (json.Unmarshal e) as [msg [err |]]; [discriminate |].
      cbn. now destruct (bot_Send w _).
  - destruct (String.eqb out EmptyString); [discriminate |].
    unfold chattableFromStdout.
    destruct (negb _).
    + cbn. now destruct (bot_Send w _).
    + destruct (json.Unmarshal out) as [msg [err |]]; [discriminate |].
      cbn. now destruct (bot_Send w _).
Qed.

End Runs.

(** ** What is replied for each outcome of the command *)

(** Output keeps a standard error of at most 64 KiB whole. *)
Lemma captured_short (stderr : string) :
  (N.of_nat (String.length stderr) <= 65536)%N -> exec.captured stderr = stderr.
Proof.
  intros Hlen. unfold exec.captured.
  destruct (N.leb_spec (N.of_nat (String.length stderr)) 65536) as [_ | Hgt];
    [reflexivity | lia].
Qed.

(** Of a longer one it keeps both ends and counts what lies between. *)
Lemma captured_long (stderr : string) :
  (65536 < N.of_nat (String.length stderr))%N ->
  exec.captured stderr
  = (String.substring 0 (N.to_nat 32768) stderr
     ++ String "010" "... omitting "
     ++ fmt.d (Z.of_nat (String.length stderr) - 65536)
     ++ " bytes ..." ++ String "010" EmptyString
     ++ String.substring (String.length stderr - N.to_nat 32768)
           (N.to_nat 32768) stderr)%string.
Proof.
  intros Hlen. unfold exec.captured.
  destruct (N.leb_spec (N.of_nat (String.length stderr)) 65536) as [Hle | _];
    [lia |].
  reflexivity.
Qed.

Section Outcomes.

Import telecmd.

Context `{regexp.Engine}.

(** A text that begins with an ASCII byte other than white space and the
    brace is sent as it is. *)
Lemma plain_text_sends (w : World) (message : tgbotapi.Message)
  (chat : tgbotapi.Chat) (c : ascii) (rest : string) :
  tgbotapi.Chat_ message = Some chat ->
  (byte_val c <? 128) = true ->
  asciiSpace c = false ->
  Ascii.eqb c "{" = false ->
  sends (trace (reply w message (String c rest)))
  = [tgbotapi.OfMessageConfig
       (textMessage (tgbotapi.Chat_ID chat) (String c rest))].
Proof.
  intros Hchat Hc Hnot Hbrace.
  rewrite (reply_sends w message chat _ Hchat). cbn [String.eqb].
  pose proof (structured_first_byte EmptyString c rest eq_refl Hc Hnot) as Hp.
  cbn [String.append] in Hp. unfold chattableFromStdout.
  now rewrite Hp, Hbrace.
Qed.

(** A command that exits with a status other than 0 before its
    deadline is answered with one message that holds the status and what
    Output has kept of the standard error: the whole of it when it is at
    most 64 KiB long, else its first and last 32 KiB around a line that
    counts the bytes left out.  The standard output is dropped. *)
Theorem nonzero_exit_is_reported (t : Telecmd) (w : World)
  (update : tgbotapi.Update) (message : tgbotapi.Message)
  (chat : tgbotapi.Chat) (cmd : exec.Cmd) (code : Z)
  (stdout stderr : string) :
  tgbotapi.Update_Message update = Some message ->
  tgbotapi.Chat_ message = Some chat ->
  In cmd (execs (trace (handleUpdate t w update))) ->
  cmd_Run w cmd = exec.Exited code stdout stderr ->
  code <> 0%Z ->
  ctx_Err w cmd <> Some context.DeadlineExceeded ->
  sends (trace (handleUpdate t w update))
  = [tgbotapi.OfMessageConfig
       (textMessage (tgbotapi.Chat_ID chat)
          ("command exited with code=" ++ fmt.d code
           ++ String "010" (String "010" EmptyString)
           ++ exec.captured stderr))]
  /\ ((N.of_nat (String.length stderr) <= 65536)%N -> exec.captured stderr = stderr)
  /\ ((65536 < N.of_nat (String.length stderr))%N ->
      exec.captured stderr
      = (String.substring 0 (N.to_nat 32768) stderr
         ++ String "010" "... omitting "
         ++ fmt.d (Z.of_nat (String.length stderr) - 65536)
         ++ " bytes ..." ++ String "010" EmptyString
         ++ String.substring (String.length stderr - N.to_nat 32768)
           (N.to_nat 32768) stderr)
        %string).
Proof.
  intros Hmsg Hchat Hin Hrun Hcode Hctx. split; [| split].
  - rewrite (handleUpdate_sends t w update message cmd Hmsg Hin), Hrun.
    unfold exec.Output. apply Z.eqb_neq in Hcode. rewrite Hcode.
    assert (Hout : outputText
              (runCommand (ctx_Err w cmd)
                 (stdout, Some (exec.ExitError code (exec.captured stderr))))
            = ("command exited with code=" ++ fmt.d code
               ++ String "010" (String "010" EmptyString)
               ++ exec.captured stderr)%string).
    { unfold runCommand.
      destruct (ctx_Err w cmd) as [[|] |]; [now elim Hctx | reflexivity..]. }
    rewrite Hout. cbn [String.append].
    now apply plain_text_sends.
  - intros Hlen. now apply captured_short.
  - intros Hlen. now apply captured_long.
Qed.

(** When the command's deadline has passed and Output reports any error,
    the answer is the fixed text that the command took too long, whatever
    the exit status and the standard error. *)
Theorem passed_deadline_is_reported (t : Telecmd) (w : World)
  (update : tgbotapi.Update) (message : tgbotapi.Message)
  (chat : tgbotapi.Chat) (cmd : exec.Cmd) :
  tgbotapi.Update_Message update = Some message ->
  tgbotapi.Chat_ message = Some chat ->
  In cmd (execs (trace (handleUpdate t w update))) ->
  snd (exec.Output (cmd_Run w cmd)) <> None ->
  ctx_Err w cmd = Some context.DeadlineExceeded ->
  sends (trace (handleUpdate t w update))
  = [tgbotapi.OfMessageConfig
       (textMessage (tgbotapi.Chat_ID chat)
          "command took too long to finish")].
Proof.
  intros Hmsg Hchat Hin Herr Hctx.
  rewrite (handleUpdate_sends t w update message cmd Hmsg Hin), Hctx.
  destruct (exec.Output (cmd_Run w cmd)) as [out [e |]];
    [| now elim Herr].
  cbn [runCommand outputText]. now apply plain_text_sends.
Qed.

(** After a command that exits with status 0 the reply is decided by its
    standard output alone: none if it is empty, else the decoded message
    or the raw text as chattableFromStdout reads it; neither the standard
    error nor a deadline that has passed meanwhile changes it. *)
Theorem success_reply_from_stdout (t : Telecmd) (w : World)
  (update : tgbotapi.Update) (message : tgbotapi.Message)
  (chat : tgbotapi.Chat) (cmd : exec.Cmd) (stdout stderr : string) :
  tgbotapi.Update_Message update = Some message ->
  tgbotapi.Chat_ message = Some chat ->
  In cmd (execs (trace (handleUpdate t w update))) ->
  cmd_Run w cmd = exec.Exited 0 stdout stderr ->
  sends (trace (handleUpdate t w update))
  = if String.eqb stdout EmptyString then []
    else match body (chattableFromStdout (tgbotapi.Chat_ID chat) stdout) with
         | Some text =>
             [tgbotapi.OfMessageConfig
                (textMessage (tgbotapi.Chat_ID chat) text)]
         | None => []
         end.
Proof.
  intros Hmsg Hchat Hin Hrun.
  rewrite (handleUpdate_sends t w update message cmd Hmsg Hin), Hrun.
  cbn [exec.Output Z.eqb runCommand outputText].
  now apply reply_sends.
Qed.

End Outcomes.

Lemma started_command_is_matched_rule_witness :
  exists message rule,
    tgbotapi.Update_Message (sample.update "deploy now") = Some message
    /\ @telecmd.ruleFromMessage regexp.literalEngine
         (telecmd.New (sample.config [sample.grepRule; sample.echoRule]))
         message = (rule, true)
    /\ telecmd.commandFromMessage
         (os_Environ (sample.world (exec.Exited 0 "ok" EmptyString)))
         rule message = Returns (sample.echoCmd, None).
Proof.
  apply (@started_command_is_matched_rule regexp.literalEngine
           (telecmd.New (sample.config [sample.grepRule; sample.echoRule]))
           (sample.world (exec.Exited 0 "ok" EmptyString))
           (sample.update "deploy now") sample.echoCmd).
  left. reflexivity.
Defined.

Lemma replies_name_no_message_witness :
  exists message chat m,
    tgbotapi.Update_Message (sample.update "deploy now") = Some message
    /\ tgbotapi.Chat_ message = Some chat
    /\ tgbotapi.OfMessageConfig (telecmd.textMessage (-1001) "ok")
       = tgbotapi.OfMessageConfig m
    /\ tgbotapi.ChatID m = tgbotapi.Chat_ID chat
    /\ tgbotapi.ReplyToMessageID m = 0%Z
    /\ tgbotapi.ReplyMarkup m = Some (tgbotapi.NewRemoveKeyboard false).
Proof.
  apply (@replies_name_no_message regexp.literalEngine
           (telecmd.New (sample.config [sample.echoRule]))
           (sample.world (exec.Exited 0 "ok" EmptyString))
           (sample.update "deploy now")).
  left. reflexivity.
Defined.

Lemma validated_handler_never_panics_witness :
  snd (@telecmd.handleUpdate regexp.literalEngine
         (telecmd.New (sample.config [sample.catRule; sample.echoRule]))
         (sample.world (exec.StartFailed "permission denied"))
         (sample.update "deploy now")) <> Panic nilDeref.
Proof.
  apply (@validated_handler_never_panics regexp.literalEngine
           (telecmd.New (sample.config [sample.catRule; sample.echoRule]))
           (sample.world (exec.StartFailed "permission denied"))
           (sample.update "deploy now")).
  - reflexivity.
  - intros message [= <-]. split; discriminate.
Defined.

Lemma nonzero_exit_is_reported_witness :
  sends (trace (@telecmd.handleUpdate regexp.literalEngine
                  (telecmd.New (sample.config [sample.echoRule]))
                  (sample.world (exec.Exited 3 "partial" "boom"))
                  (sample.update "deploy now")))
  = [tgbotapi.OfMessageConfig
       (telecmd.textMessage (-1001)
          ("command exited with code=" ++ fmt.d 3
           ++ String "010" (String "010" EmptyString)
           ++ exec.captured "boom"))]
  /\ ((N.of_nat (String.length "boom") <= 65536)%N ->
      exec.captured "boom" = "boom"%string)
  /\ ((65536 < N.of_nat (String.length "boom"))%N ->
      exec.captured "boom"
      = (String.substring 0 (N.to_nat 32768) "boom"
         ++ String "010" "... omitting "
         ++ fmt.d (Z.of_nat (String.length "boom") - 65536)
         ++ " bytes ..." ++ String "010" EmptyString
         ++ String.substring (String.length "boom" - N.to_nat 32768)
              (N.to_nat 32768) "boom")%string).
Proof.
  apply (@nonzero_exit_is_reported regexp.literalEngine
           (telecmd.New (sample.config [sample.echoRule]))
           (sample.world (exec.Exited 3 "partial" "boom"))
           (sample.update "deploy now") (sample.message "deploy now")
           sample.chat sample.echoCmd 3%Z "partial" "boom").
  - reflexivity.
  - reflexivity.
  - left. reflexivity.
  - reflexivity.
  - discriminate.
  - discriminate.
Defined.

(** A standard error of 70028 bytes is cut to 65565 bytes, the line
    about the 4492 bytes left out included, and the text that the runner
    returns for the reply has 65593. *)
Example long_stderr_is_cut :
  N.of_nat (String.length (exec.captured (sample.filler (N.to_nat 70028))))
  = 65565
  /\ N.of_nat
       (String.length
          (outputText
             (telecmd.runCommand None
                (exec.Output
                   (exec.Exited 1 EmptyString
                      (sample.filler (N.to_nat 70028)))))))
     = 65593
  /\ String.substring (N.to_nat 32768) 29
       (exec.captured (sample.filler (N.to_nat 70028)))
     = (String "010" "... omitting 4492 bytes ..."
        ++ String "010" EmptyString)%string.
Proof. split; [| split]; vm_compute; reflexivity. Qed.

Lemma passed_deadline_is_reported_witness :
  sends (trace (@telecmd.handleUpdate regexp.literalEngine
                  (telecmd.New (sample.config [sample.echoRule]))
                  (sample.lateWorld (exec.Exited (-1) "partial" "killed"))
                  (sample.update "deploy now")))
  = [tgbotapi.OfMessageConfig
       (telecmd.textMessage (-1001) "command took too long to finish")].
Proof.
  apply (@passed_deadline_is_reported regexp.literalEngine
           (telecmd.New (sample.config [sample.echoRule]))
           (sample.lateWorld (exec.Exited (-1) "partial" "killed"))
           (sample.update "deploy now") (sample.message "deploy now")
           sample.chat sample.echoCmd).
  - reflexivity.
  - reflexivity.
  - left. reflexivity.
  - discriminate.
  - reflexivity.
Defined.

Lemma success_reply_from_stdout_witness :
  sends (trace (@telecmd.handleUpdate regexp.literalEngine
                  (telecmd.New (sample.config [sample.echoRule]))
                  (sample.lateWorld
                     (exec.Exited 0 (sample.messageObject "done") "warn"))
                  (sample.update "deploy now")))
  = [tgbotapi.OfMessageConfig (telecmd.textMessage (-1001) "done")].
Proof.
  apply (@success_reply_from_stdout regexp.literalEngine
           (telecmd.New (sample.config [sample.echoRule]))
           (sample.lateWorld
              (exec.Exited 0 (sample.messageObject "done") "warn"))
           (sample.update "deploy now") (sample.message "deploy now")
           sample.chat sample.echoCmd (sample.messageObject "done") "warn").
  - reflexivity.
  - reflexivity.
  - left. reflexivity.
  - reflexivity.
Defined.

(** ** More on matching *)

Section FirstMatch.

Context `{regexp.Engine}.

Lemma firstMatch_inv (rules : list telecmd.Rule) (text : string)
  (rule : telecmd.Rule) (ok : bool) :
  telecmd.firstMatch rules text = (rule, ok) ->
  if ok then
    exists pre post,
      rules = pre ++ rule :: post
      /\ (forall q, In q pre ->
            matchesText text (telecmd.Pattern q) = false)
      /\ matchesText text (telecmd.Pattern rule) = true
  else
    rule = telecmd.zeroRule
    /\ forall q, In q rules -> matchesText text (telecmd.Pattern q) = false.
Proof.
  revert rule ok. induction rules as [| r rules IH]; intros rule ok.
  - intros [= <- <-]. split; [reflexivity | intros q []].
  - rewrite firstMatch_step.
    destruct (matchesText text (telecmd.Pattern r)) eqn:Hr.
    + intros [= <- <-]. exists [], rules.
      split; [reflexivity | split; [intros q [] | exact Hr]].
    + intros Hrest. specialize (IH rule ok Hrest). destruct ok.
      * destruct IH as [pre [post [-> [Hpre Hrule]]]].
        exists (r :: pre), post.
        split; [reflexivity | split; [| exact Hrule]].
        intros q [<- | Hq]; [exact Hr | now apply Hpre].
      * destruct IH as [-> Hnone]. split; [reflexivity |].
        intros q [<- | Hq]; [exact Hr | now apply Hnone].
Qed.

(** ruleFromMessage returns a rule with true exactly when that rule is
    the first of the configured list whose pattern matches the text, and
    the zero Rule with false exactly when no rule of the list matches. *)
Theorem ruleFromMessage_is_first_match (t : telecmd.Telecmd)
  (message : tgbotapi.Message) (rule : telecmd.Rule) :
  (telecmd.ruleFromMessage t message = (rule, true)
   <-> exists pre post,
         telecmd.Rules (telecmd.config t) = pre ++ rule :: post
         /\ (forall q, In q pre ->
               matchesText (tgbotapi.Text message) (telecmd.Pattern q)
               = false)
         /\ matchesText (tgbotapi.Text message) (telecmd.Pattern rule)
            = true)
  /\ (telecmd.ruleFromMessage t message = (rule, false)
      <-> rule = telecmd.zeroRule
          /\ forall q, In q (telecmd.Rules (telecmd.config t)) ->
               matchesText (tgbotapi.Text message) (telecmd.Pattern q)
               = false).
Proof.
  split; split.
  - intros Hfirst.
    exact (firstMatch_inv _ _ _ true Hfirst).
  - intros [pre [post [Hrules [Hpre Hrule]]]].
    now apply (ruleFromMessage_first t message pre post rule).
  - intros Hnone.
    exact (firstMatch_inv _ _ _ false Hnone).
  - intros [-> Hnone]. now apply ruleFromMessage_none.
Qed.

(** The error of regexp.MatchString is dropped, so a rule whose pattern
    does not compile matches no message: taking it out of the list
    changes the result of ruleFromMessage for no message. *)
Theorem uncompilable_rule_is_skipped (t t' : telecmd.Telecmd)
  (message : tgbotapi.Message) (pre post : list telecmd.Rule)
  (bad : telecmd.Rule) (e : string) :
  telecmd.Rules (telecmd.config t) = pre ++ bad :: post ->
  telecmd.Rules (telecmd.config t') = pre ++ post ->
  regexp.Compile (telecmd.Pattern bad) = inr e ->
  telecmd.ruleFromMessage t message = telecmd.ruleFromMessage t' message.
Proof.
  unfold telecmd.ruleFromMessage. intros -> -> Hbad.
  induction pre as [| r pre IH]; cbn [app].
  - rewrite firstMatch_step. unfold matchesText, regexp.MatchString.
    now rewrite Hbad.
  - rewrite !firstMatch_step, IH. reflexivity.
Qed.

(** The loop of the single-file main finds no rule exactly when no
    pattern matches; when some pattern matches, the rule it runs is the
    last rule of the list, matching or not. *)
Theorem legacy_matchRule_is_last_rule (c : legacy.Config) (text : string) :
  (legacy.matchRule c text = None
   <-> forall q, In q (legacy.Rules c) ->
         matchesText text (legacy.Pattern q) = false)
  /\ (forall r,
        legacy.matchRule c text = Some r ->
        r = last (legacy.Rules c) legacy.zeroRule
        /\ exists q, In q (legacy.Rules c)
                     /\ matchesText text (legacy.Pattern q) = true).
Proof.
  rewrite legacy_matchRule_last.
  destruct (existsb (fun r => matchesText text (legacy.Pattern r))
              (legacy.Rules c)) eqn:E.
  - apply existsb_exists in E. destruct E as [q [Hq Hmatch]]. split.
    + split; [discriminate |]. intros Hnone.
      rewrite (Hnone q Hq) in Hmatch. discriminate.
    + intros r [= <-]. split; [reflexivity | now exists q].
  - split; [| discriminate]. split; [| reflexivity].
    intros _ q Hq.
    destruct (matchesText text (legacy.Pattern q)) eqn:Hmatch;
      [| reflexivity].
    assert (Hex : existsb (fun r => matchesText text (legacy.Pattern r))
                    (legacy.Rules c) = true)
      by (apply existsb_exists; now exists q).
    congruence.
Qed.

End FirstMatch.

Lemma uncompilable_rule_is_skipped_witness :
  @telecmd.ruleFromMessage regexp.literalEngine
    (telecmd.New (sample.config
                    [sample.grepRule; sample.brokenRule; sample.first]))
    (sample.message "deploy( now")
  = @telecmd.ruleFromMessage regexp.literalEngine
      (telecmd.New (sample.config [sample.grepRule; sample.first]))
      (sample.message "deploy( now").
Proof.
  apply (@uncompilable_rule_is_skipped regexp.literalEngine
           (telecmd.New (sample.config
                           [sample.grepRule; sample.brokenRule;
                            sample.first]))
           (telecmd.New (sample.config [sample.grepRule; sample.first]))
           (sample.message "deploy( now")
           [sample.grepRule] [sample.first] sample.brokenRule
           "error parsing regexp: missing closing ): `deploy(`").
  - reflexivity.
  - reflexivity.
  - reflexivity.
Defined.

(** ** More on validation *)

Section Validated.

Context `{regexp.Engine}.

Lemma Rule_Validate_wellFormed (r : telecmd.Rule) :
  telecmd.Rule_Validate r = None <-> wellFormed r.
Proof.
  unfold telecmd.Rule_Validate, wellFormed.
  destruct (regexp.Compile (telecmd.Pattern r)) as [re | e].
  - destruct (telecmd.Command r) as [| exe fixed]; cbn.
    + split; [discriminate | intros [_ Hcmd]; now elim Hcmd].
    + split; [| reflexivity]. intros _. split; [now exists re | discriminate].
  - split; [discriminate | intros [[re Hre] _]; discriminate].
Qed.

Lemma Forall_wellFormed (rules : list telecmd.Rule) :
  Forall (fun r => telecmd.Rule_Validate r = None) rules
  <-> Forall wellFormed rules.
Proof.
  split; intros Hall; induction Hall; constructor;
    try assumption; now apply Rule_Validate_wellFormed.
Qed.

(** Config.Validate accepts a configuration exactly when its rule list
    is not empty and every rule has a pattern that compiles and a command
    of at least one word. *)
Theorem Config_Validate_accepts (c : telecmd.Config) :
  telecmd.Config_Validate c = None
  <-> telecmd.Rules c <> [] /\ Forall wellFormed (telecmd.Rules c).
Proof.
  unfold telecmd.Config_Validate.
  destruct (telecmd.Rules c) as [| r rules]; cbn [List.length Nat.eqb].
  - split; [discriminate | intros [Hne _]; now elim Hne].
  - rewrite validateRules_accepts, Forall_wellFormed.
    split; [intros Hall; split; [discriminate | exact Hall] | now intros []].
Qed.

Lemma validateRules_first_invalid (i : nat)
  (pre post : list telecmd.Rule) (bad : telecmd.Rule) (err : string) :
  Forall wellFormed pre ->
  telecmd.Rule_Validate bad = Some err ->
  telecmd.validateRules i (pre ++ bad :: post)
  = Some ("invalid rule " ++ fmt.d (Z.of_nat (i + List.length pre)) ++ ": "
          ++ err)%string.
Proof.
  intros Hpre Hbad. revert i.
  induction Hpre as [| r pre Hr Hpre IH]; intros i; cbn [app List.length].
  - cbn [telecmd.validateRules]. now rewrite Hbad, Nat.add_0_r.
  - cbn [telecmd.validateRules].
    apply Rule_Validate_wellFormed in Hr. rewrite Hr, IH.
    now rewrite Nat.add_succ_r.
Qed.

(** Config.Validate stops at the first rule that fails Rule.Validate and
    names it by its index in the list, counted from 0, whatever rules
    follow it. *)
Theorem Config_Validate_names_first_invalid (c : telecmd.Config)
  (pre post : list telecmd.Rule) (bad : telecmd.Rule) (err : string) :
  telecmd.Rules c = pre ++ bad :: post ->
  Forall wellFormed pre ->
  telecmd.Rule_Validate bad = Some err ->
  telecmd.Config_Validate c
  = Some ("invalid rule " ++ fmt.d (Z.of_nat (List.length pre)) ++ ": "
          ++ err)%string.
Proof.
  intros Hrules Hpre Hbad. unfold telecmd.Config_Validate. rewrite Hrules.
  replace (Nat.eqb (List.length (pre ++ bad :: post)) 0) with false
    by (now destruct pre).
  exact (validateRules_first_invalid 0 pre post bad err Hpre Hbad).
Qed.

End Validated.

Lemma Config_Validate_names_first_invalid_witness :
  @telecmd.Config_Validate regexp.literalEngine
    (sample.config [sample.echoRule; sample.catRule; sample.emptyRule;
                    sample.echoRule])
  = Some "invalid rule 2: invalid command"%string.
Proof.
  apply (@Config_Validate_names_first_invalid regexp.literalEngine
           (sample.config [sample.echoRule; sample.catRule;
                           sample.emptyRule; sample.echoRule])
           [sample.echoRule; sample.catRule] [sample.echoRule]
           sample.emptyRule "invalid command").
  - reflexivity.
  - repeat constructor; try discriminate;
      eexists; reflexivity.
  - reflexivity.
Defined.

(** ** The variables of the message in the command's environment *)

Section MessageVariables.

Import telecmd.

(** Whatever the inherited environment and the rule's own entries hold
    under the same names, the command finds the chat id and the sender id
    of the message in TELEGRAM_CHAT_ID and TELEGRAM_FROM_USER_ID; for a
    reply it finds the id and the whole text of the message replied to;
    for a message that is no reply the two reply variables are not set by
    the handler, so values from the earlier layers show through. *)
Theorem message_variables_win (environ : list string) (rule : Rule)
  (message : tgbotapi.Message) (chat : tgbotapi.Chat)
  (from : tgbotapi.User) :
  Command rule <> [] ->
  tgbotapi.Chat_ message = Some chat ->
  tgbotapi.From message = Some from ->
  exists cmd,
    commandFromMessage environ rule message = Returns (cmd, None)
    /\ exec.Getenv (exec.Env cmd) "TELEGRAM_CHAT_ID"
       = Some (fmt.d (tgbotapi.Chat_ID chat))
    /\ exec.Getenv (exec.Env cmd) "TELEGRAM_FROM_USER_ID"
       = Some (fmt.d (tgbotapi.User_ID from))
    /\ match tgbotapi.ReplyToMessage message with
       | Some replied =>
           exec.Getenv (exec.Env cmd) "TELEGRAM_REPLY_TO_MESSAGE_ID"
           = Some (fmt.d (tgbotapi.MessageID replied))
           /\ exec.Getenv (exec.Env cmd) "TELEGRAM_REPLY_TO_MESSAGE_TEXT"
              = Some (tgbotapi.Text replied)
       | None =>
           exec.Getenv (exec.Env cmd) "TELEGRAM_REPLY_TO_MESSAGE_ID"
           = exec.Getenv (environ ++ Environment rule)
               "TELEGRAM_REPLY_TO_MESSAGE_ID"
           /\ exec.Getenv (exec.Env cmd) "TELEGRAM_REPLY_TO_MESSAGE_TEXT"
              = exec.Getenv (environ ++ Environment rule)
                  "TELEGRAM_REPLY_TO_MESSAGE_TEXT"
       end.
Proof.
  intros Hcmd Hchat Hfrom.
  destruct (Command rule) as [| exe fixed] eqn:E; [now elim Hcmd |].
  eexists.
  split; [exact (commandFromMessage_returns environ rule message exe fixed E) |].
  cbn [exec.Env]. rewrite !Getenv_app.
  unfold envsFromUpdate. rewrite Hchat, Hfrom.
  destruct (tgbotapi.ReplyToMessage message) as [replied |];
    repeat split; reflexivity.
Qed.

End MessageVariables.

Lemma message_variables_win_witness :
  exists cmd,
    telecmd.commandFromMessage
      ["TELEGRAM_CHAT_ID=1"; "TELEGRAM_REPLY_TO_MESSAGE_ID=99"]%string
      {| telecmd.Name := "spoof"; telecmd.Pattern := "deploy";
         telecmd.WorkingDirectory := EmptyString;
         telecmd.UseStdin := false;
         telecmd.Environment := ["TELEGRAM_FROM_USER_ID=2"%string];
         telecmd.Command := ["env"%string] |}
      (sample.message "deploy now") = Returns (cmd, None)
    /\ exec.Getenv (exec.Env cmd) "TELEGRAM_CHAT_ID" = Some "-1001"%string
    /\ exec.Getenv (exec.Env cmd) "TELEGRAM_FROM_USER_ID" = Some "42"%string
    /\ exec.Getenv (exec.Env cmd) "TELEGRAM_REPLY_TO_MESSAGE_ID"
       = Some "99"%string
    /\ exec.Getenv (exec.Env cmd) "TELEGRAM_REPLY_TO_MESSAGE_TEXT" = None.
Proof.
  destruct (message_variables_win
              ["TELEGRAM_CHAT_ID=1"; "TELEGRAM_REPLY_TO_MESSAGE_ID=99"]%string
              {| telecmd.Name := "spoof"; telecmd.Pattern := "deploy";
                 telecmd.WorkingDirectory := EmptyString;
                 telecmd.UseStdin := false;
                 telecmd.Environment := ["TELEGRAM_FROM_USER_ID=2"%string];
                 telecmd.Command := ["env"%string] |}
              (sample.message "deploy now") sample.chat sample.user)
    as [cmd [Hcmd [Hchat [Hfrom [Hid Htext]]]]].
  - discriminate.
  - reflexivity.
  - reflexivity.
  - exists cmd. repeat split; assumption.
Defined.

(** ** The version string *)

Section BuildVersion.

Import version.

Lemma substring_length (n : nat) (s : string) :
  (n <= String.length s)%nat -> String.length (String.substring 0 n s) = n.
Proof.
  revert s. induction n as [| n IH]; intros s Hn.
  - now destruct s.
  - destruct s as [| c s]; [inversion Hn |].
    cbn. f_equal. apply IH. now apply Nat.succ_le_mono.
Qed.

Lemma substring_prefix (n : nat) (s : string) :
  String.prefix (String.substring 0 n s) s = true.
Proof.
  revert s. induction n as [| n IH]; intros s.
  - now destruct s.
  - destruct s as [| c s]; [reflexivity |]. cbn.
    destruct (ascii_dec c c) as [_ | Hne]; [apply IH | now elim Hne].
Qed.

Lemma scanSettings_panics (info : Version) (settings : list BuildSetting) :
  (exists reason, scanSettings info settings = Panics reason)
  <-> exists s, In s settings
                /\ Key s = "vcs.revision"%string
                /\ (String.length (Value s) < 7)%nat.
Proof.
  revert info. induction settings as [| s rest IH]; intros info.
  - split; [intros [reason Hp]; discriminate | intros [s [[] _]]].
  - cbn [scanSettings].
    destruct (String.eqb_spec (Key s) "vcs.revision") as [Hrev | Hrev].
    + destruct (Nat.ltb_spec (String.length (Value s)) 7) as [Hshort | Hlong].
      * split; [intros _; exists s; repeat split; auto; now left |].
        intros _. now eexists.
      * rewrite IH. split.
        -- intros [q [Hq Hbad]]. exists q. split; [now right | exact Hbad].
        -- intros [q [[<- | Hq] [Hk Hlen]]].
           ++ exfalso. apply (Nat.lt_irrefl 7).
              now apply (Nat.le_lt_trans _ (String.length (Value s))).
           ++ now exists q.
    + assert (Hstep : forall info',
        (exists reason, scanSettings info' rest = Panics reason)
        <-> exists q, In q (s :: rest)
                      /\ Key q = "vcs.revision"%string
                      /\ (String.length (Value q) < 7)%nat).
      { intros info'. rewrite IH. split.
        - intros [q [Hq Hbad]]. exists q. split; [now right | exact Hbad].
        - intros [q [[<- | Hq] [Hk Hlen]]]; [now elim Hrev | now exists q]. }
      destruct (String.eqb (Key s) "vcs.time"); apply Hstep.
Qed.

(** GitVersion panics exactly when the build information holds a
    vcs.revision setting of fewer than seven bytes; without build
    information it returns. *)
Theorem GitVersion_panics_on_short_revision
  (build : option (list BuildSetting)) :
  (exists reason, GitVersion build = Panics reason)
  <-> exists settings s,
        build = Some settings
        /\ In s settings
        /\ Key s = "vcs.revision"%string
        /\ (String.length (Value s) < 7)%nat.
Proof.
  unfold GitVersion. destruct build as [settings |].
  - rewrite scanSettings_panics. split.
    + intros [s Hs]. now exists settings, s.
    + intros [settings' [s [[= <-] Hs]]]. now exists s.
  - split; [intros [reason Hp]; discriminate |].
    intros [settings [s [Hb _]]]. discriminate.
Qed.

Lemma scanSettings_commit (info v : Version)
  (settings : list BuildSetting) :
  scanSettings info settings = Returns v ->
  ((forall s, In s settings -> Key s <> "vcs.revision"%string)
   /\ Commit v = Commit info)
  \/ exists pre s post,
       settings = pre ++ s :: post
       /\ Key s = "vcs.revision"%string
       /\ (forall q, In q post -> Key q <> "vcs.revision"%string)
       /\ Commit v = String.substring 0 7 (Value s)
       /\ String.length (Commit v) = 7%nat.
Proof.
  revert info. induction settings as [| s rest IH]; intros info.
  - intros [= <-]. left. split; [intros s [] | reflexivity].
  - cbn [scanSettings].
    assert (Hkeep : forall info',
      Commit info' = Commit info ->
      Key s <> "vcs.revision"%string ->
      scanSettings info' rest = Returns v ->
      ((forall q, In q (s :: rest) -> Key q <> "vcs.revision"%string)
       /\ Commit v = Commit info)
      \/ exists pre s0 post,
           s :: rest = pre ++ s0 :: post
           /\ Key s0 = "vcs.revision"%string
           /\ (forall q, In q post -> Key q <> "vcs.revision"%string)
           /\ Commit v = String.substring 0 7 (Value s0)
           /\ String.length (Commit v) = 7%nat).
    { intros info' Hsame Hkey Hscan.
      destruct (IH info' Hscan)
        as [[Hnone Hc] | [pre [s0 [post [-> Hrest]]]]].
      - left. split; [| congruence].
        intros q [<- | Hq]; [exact Hkey | now apply Hnone].
      - right. now exists (s :: pre), s0, post. }
    destruct (String.eqb_spec (Key s) "vcs.revision") as [Hrev | Hrev].
    + destruct (Nat.ltb_spec (String.length (Value s)) 7) as [Hshort | Hlong];
        [discriminate |].
      intros Hscan.
      destruct (IH _ Hscan) as [[Hnone Hc] | [pre [s0 [post [-> Hrest]]]]].
      * right. exists [], s, rest. cbn [Commit] in Hc.
        repeat split; try assumption.
        rewrite Hc. now apply substring_length.
      * right. now exists (s :: pre), s0, post.
    + destruct (String.eqb (Key s) "vcs.time");
        now apply Hkeep.
Qed.

(** When GitVersion returns, the commit it reports is the first seven
    bytes of the last vcs.revision setting, and empty if there is none;
    the version string is the commit time, a dot, and that commit. *)
Theorem GitVersion_commit_is_seven_bytes (settings : list BuildSetting)
  (v : Version) :
  GitVersion (Some settings) = Returns v ->
  Version_String v = (CommitTime v ++ "." ++ Commit v)%string
  /\ (((forall s, In s settings -> Key s <> "vcs.revision"%string)
       /\ Commit v = EmptyString)
      \/ exists pre s post,
           settings = pre ++ s :: post
           /\ Key s = "vcs.revision"%string
           /\ (forall q, In q post -> Key q <> "vcs.revision"%string)
           /\ Commit v = String.substring 0 7 (Value s)
           /\ String.length (Commit v) = 7%nat
           /\ String.prefix (Commit v) (Value s) = true).
Proof.
  unfold GitVersion. intros Hscan. split; [reflexivity |].
  destruct (scanSettings_commit _ v settings Hscan)
    as [Hnone | [pre [s [post [Hs [Hk [Hpost [Hc Hlen]]]]]]]].
  - now left.
  - right. exists pre, s, post. repeat split; try assumption.
    rewrite Hc. apply substring_prefix.
Qed.

End BuildVersion.

Lemma GitVersion_commit_is_seven_bytes_witness :
  version.Version_String
    {| version.Commit := "0a1b2c3"; version.CommitTime := "2023-03-15" |}
  = "2023-03-15.0a1b2c3"%string
  /\ version.GitVersion
       (Some [ {| version.Key := "vcs.revision";
                  version.Value := "ffffffffffff" |};
               {| version.Key := "vcs.time";
                  version.Value := "2023-03-15" |};
               {| version.Key := "vcs.revision";
                  version.Value := "0a1b2c3d4e5f" |};
               {| version.Key := "vcs.modified";
                  version.Value := "false" |} ])
     = Returns {| version.Commit := "0a1b2c3";
                  version.CommitTime := "2023-03-15" |}.
Proof.
  split.
  - apply (proj1 (GitVersion_commit_is_seven_bytes
                    [ {| version.Key := "vcs.revision";
                         version.Value := "0a1b2c3d4e5f" |};
                      {| version.Key := "vcs.time";
                         version.Value := "2023-03-15" |} ]
                    {| version.Commit := "0a1b2c3";
                       version.CommitTime := "2023-03-15" |}
                    eq_refl)).
  - reflexivity.
Defined.

(** ** The handler of the single-file main *)

Section LegacyHandler.

Context `{regexp.Engine}.

Variable timeoutText : legacy.Config -> string.

(** An update without a message, such as a callback query, is dropped
    silently by the handler of Run; the handler of the single-file main
    reads the message's text first and panics. *)
Theorem update_without_message (t : telecmd.Telecmd) (c : legacy.Config)
  (w : World) (update : tgbotapi.Update) :
  tgbotapi.Update_Message update = None ->
  telecmd.handleUpdate t w update = ([], Return)
  /\ legacy.handleUpdate timeoutText c w update = ([], Panic nilDeref).
Proof.
  intros Hnone.
  unfold telecmd.handleUpdate, telecmd.commandOutput, legacy.handleUpdate.
  now rewrite Hnone.
Qed.

(** In the single-file main a command that does not start, its deadline
    not passed, leaves five events: the message and the matched rule are
    logged, the command is logged as running and started, and it is logged
    at debug level as finished with an error.  The handler then returns
    without a reply. *)
Theorem legacy_launch_failure_is_logged (c : legacy.Config) (w : World)
  (update : tgbotapi.Update) (cmd : exec.Cmd) (msg : string) :
  In cmd (execs (trace (legacy.handleUpdate timeoutText c w update))) ->
  cmd_Run w cmd = exec.StartFailed msg ->
  ctx_Err w cmd <> Some context.DeadlineExceeded ->
  trace (legacy.handleUpdate timeoutText c w update)
  = [Log LInfo "got message"; Log LDebug "matched rule";
     Log LDebug "running command"; Exec cmd;
     Log LDebug "command finished with error"]
  /\ snd (legacy.handleUpdate timeoutText c w update) = Return.
Proof.
  unfold legacy.handleUpdate.
  destruct (tgbotapi.Update_Message update) as [message |];
    [| cbn; intros []].
  destruct (tgbotapi.From message) as [from |]; [| cbn; intros []].
  destruct (legacy.matchRule c (tgbotapi.Text message)) as [matched |];
    [| cbn; intros []].
  destruct (legacy.Command matched ++ ["--"%string; tgbotapi.Text message])
    as [| exe cmdArgs]; [cbn; intros [] |].
  cbv zeta.
  match goal with
  | |- context [Exec ?built] => set (cmd0 := built)
  end.
  assert (Hone : forall k : Task unit,
    In cmd (execs (trace (emit (Log LInfo "got message") ;;;
                          emit (Log LDebug "matched rule") ;;;
                          emit (Log LDebug "running command") ;;;
                          emit (Exec cmd0) ;;; k))) ->
    cmd0 = cmd \/ In cmd (execs (trace k))).
  { intros [tr f]. cbn. intros [Heq | Hin]; [now left | now right]. }
  assert (Hnone : forall reply,
    execs (trace (legacy.sendReply w message reply)) = []).
  { intros reply. unfold legacy.sendReply.
    destruct (String.eqb reply EmptyString); [reflexivity |].
    destruct (tgbotapi.Chat_ message) as [chat |]; [| reflexivity].
    destruct (legacy.chattableFromStdout (tgbotapi.Chat_ID chat) reply)
      as [[m |] [e |]]; try reflexivity.
    cbn. now destruct (bot_Send w _). }
  intros Hin Hrun Hctx. apply Hone in Hin.
  assert (Heq : cmd0 = cmd).
  { destruct Hin as [Heq | Hin]; [exact Heq | exfalso].
    destruct (exec.Output (cmd_Run w cmd0)) as [out [e |]].
    - destruct (ctx_Err w cmd0) as [[|] |]; destruct e;
        rewrite !trace_bind, !execs_app in Hin; cbn [snd bind emit ret] in Hin;
        rewrite Hnone in Hin; exact Hin.
    - rewrite !trace_bind, !execs_app in Hin. cbn [snd ret] in Hin.
      rewrite Hnone in Hin. exact Hin. }
  clear Hin Hone. rewrite <- Heq in Hrun, Hctx. rewrite Hrun.
  cbn. destruct (ctx_Err w cmd0) as [[|] |];
    [now elim Hctx | rewrite <- Heq; now split..].
Qed.

End LegacyHandler.

Lemma update_without_message_witness :
  @telecmd.handleUpdate regexp.literalEngine
    (telecmd.New (sample.config [sample.echoRule]))
    (sample.world (exec.Exited 0 "ok" EmptyString))
    {| tgbotapi.Update_Message := None |} = ([], Return)
  /\ @legacy.handleUpdate regexp.literalEngine (fun _ => "5s"%string)
       (sample.legacyConfig [sample.legacyFirst])
       (sample.world (exec.Exited 0 "ok" EmptyString))
       {| tgbotapi.Update_Message := None |} = ([], Panic nilDeref).
Proof.
  apply (@update_without_message regexp.literalEngine (fun _ => "5s"%string)
           (telecmd.New (sample.config [sample.echoRule]))
           (sample.legacyConfig [sample.legacyFirst])
           (sample.world (exec.Exited 0 "ok" EmptyString))
           {| tgbotapi.Update_Message := None |}).
  reflexivity.
Defined.

Lemma legacy_launch_failure_is_logged_witness :
  trace (@legacy.handleUpdate regexp.literalEngine (fun _ => "5s"%string)
           (sample.legacyConfig [sample.legacyFirst])
           (sample.world (exec.StartFailed "permission denied"))
           (sample.update "deploy now"))
  = [Log LInfo "got message"; Log LDebug "matched rule";
     Log LDebug "running command";
     Exec {| exec.Args := ["one"; "--"; "deploy now"]%string;
             exec.Env := ["PATH=/usr/bin"; "STAGE=dev";
                          "TELEGRAM_CHAT_ID=-1001";
                          "TELEGRAM_FROM_USER_ID=42"]%string;
             exec.Dir := EmptyString;
             exec.Stdin := None |};
     Log LDebug "command finished with error"]
  /\ snd (@legacy.handleUpdate regexp.literalEngine (fun _ => "5s"%string)
            (sample.legacyConfig [sample.legacyFirst])
            (sample.world (exec.StartFailed "permission denied"))
            (sample.update "deploy now")) = Return.
Proof.
  apply (@legacy_launch_failure_is_logged regexp.literalEngine
           (fun _ => "5s"%string)
           (sample.legacyConfig [sample.legacyFirst])
           (sample.world (exec.StartFailed "permission denied"))
           (sample.update "deploy now")
           {| exec.Args := ["one"; "--"; "deploy now"]%string;
              exec.Env := ["PATH=/usr/bin"; "STAGE=dev";
                           "TELEGRAM_CHAT_ID=-1001";
                           "TELEGRAM_FROM_USER_ID=42"]%string;
              exec.Dir := EmptyString;
              exec.Stdin := None |}
           "permission denied"%string).
  - left. reflexivity.
  - reflexivity.
  - discriminate.
Defined.
